(** * PRNet/utils/visualizer.py: image and loss logging sink

  A shallow embedding of [save_images], [display_test_results] and the
  [Visualizer] class, with the Python built-ins they rely on (the [%]
  formatting operator, [os.path.join], [ntpath.basename],
  [os.path.splitext]) and the properties of the logging contract. *)

From Stdlib Require Import ZArith Ascii String List Lia SpecFloat.
From stdpp Require Import base option list strings pretty gmap.

Local Open Scope string_scope.
Local Open Scope Z_scope.

(** ** Python string formatting *)

Module PyFormat.

(** [str.zfill]-like left padding of a digit string with ['0']. *)
Fixpoint zeros (n : nat) : string :=
  match n with
  | O => ""
  | S k => String "0" (zeros k)
  end.

Definition pad_digits (width : nat) (digits : string) : string :=
  zeros (width - String.length digits) +:+ digits.

(** ['%d' % n] for a Python [int]. *)
Definition fmt_d (n : Z) : string := pretty n.

(** ['%.3d' % n]: the precision is the minimal number of digits; the
    sign, if any, comes in front of the padded digits. *)
Definition fmt_p3d (n : Z) : string :=
  (if n <? 0 then "-" else "") +:+ pad_digits 3 (pretty (Z.abs_N n)).

(** ['{:03d}'.format(n)], the notation of the specification: the
    width 3 counts the sign. *)
Definition fmt_03d (n : Z) : string :=
  if n <? 0 then "-" +:+ pad_digits 2 (pretty (Z.abs_N n))
  else pad_digits 3 (pretty (Z.abs_N n)).

(** Rounding of the rational [num / den] ([0 < den]) to the nearest
    integer, ties to even. *)
Definition round_half_even (num den : Z) : Z :=
  let q := num / den in
  let r := num mod den in
  if 2 * r <? den then q
  else if den <? 2 * r then q + 1
  else if Z.even q then q else q + 1.

(** The magnitude [m * 2^e] in thousandths, correctly rounded. *)
Definition thousandths (m : positive) (e : Z) : Z :=
  if 0 <=? e then Z.pos m * 2 ^ e * 1000
  else round_half_even (Z.pos m * 1000) (2 ^ (- e)).

Definition fmt_sign (s : bool) : string := if s then "-" else "".

(** ['%.3f' % x] for a Python [float] (an IEEE 754 binary64 value):
    CPython prints the correctly rounded decimal expansion, the sign
    coming from the sign bit. *)
Definition fmt_f3 (x : spec_float) : string :=
  match x with
  | S754_zero s => fmt_sign s +:+ "0.000"
  | S754_infinity s => fmt_sign s +:+ "inf"
  | S754_nan => "nan"
  | S754_finite s m e =>
      let t := thousandths m e in
      fmt_sign s +:+ pretty (Z.to_N (t / 1000)) +:+ "."
        +:+ pad_digits 3 (pretty (Z.to_N (t mod 1000)))
  end.

(** The binary64 value nearest to the positive rational [num / den]
    (a float literal of the source text), for values in the normal
    range. *)
Definition double_of_ratio (num den : positive) : spec_float :=
  let e0 := Z.log2 (Z.pos num) - Z.log2 (Z.pos den) - 52 in
  let scaled (e : Z) : Z * Z :=
    if 0 <=? e then (Z.pos num, Z.pos den * 2 ^ e)
    else (Z.pos num * 2 ^ (- e), Z.pos den) in
  let e := if (fst (scaled e0) / snd (scaled e0)) <? 2 ^ 52 then e0 - 1 else e0 in
  let m := round_half_even (fst (scaled e)) (snd (scaled e)) in
  if m =? 2 ^ 53 then S754_finite false (Z.to_pos (2 ^ 52)) (e + 1)
  else S754_finite false (Z.to_pos m) e.

End PyFormat.


(** ** Python path functions *)

Module PyPath.

Definition is_slash (c : ascii) : bool := bool_decide (c = "/"%char).

(** [seps] of [ntpath]: both the backslash and the slash. *)
Definition is_ntsep (c : ascii) : bool :=
  bool_decide (c = "/"%char) || bool_decide (c = "\"%char).

Definition startswith_slash (s : string) : bool :=
  match s with
  | String c _ => is_slash c
  | EmptyString => false
  end.

Fixpoint endswith_slash (s : string) : bool :=
  match s with
  | EmptyString => false
  | String c EmptyString => is_slash c
  | String _ r => endswith_slash r
  end.

Definition is_empty (s : string) : bool :=
  match s with
  | EmptyString => true
  | String _ _ => false
  end.

(** One round of the loop of [posixpath.join]. *)
Definition join_step (path b : string) : string :=
  if startswith_slash b then b
  else if is_empty path || endswith_slash path then path +:+ b
  else path +:+ "/" +:+ b.

(** [os.path.join(a, *p)] on a POSIX host. *)
Definition os_path_join (a : string) (p : list string) : string :=
  fold_left join_step p a.

(** [p.replace('/', '\\')]. *)
Fixpoint replace_altsep (p : string) : string :=
  match p with
  | EmptyString => EmptyString
  | String c r => String (if is_slash c then "\"%char else c) (replace_altsep r)
  end.

(** [s[i:]]. *)
Definition drop_str (i : nat) (s : string) : string :=
  String.substring i (String.length s - i) s.

(** [s[:i]]. *)
Definition take_str (i : nat) (s : string) : string :=
  String.substring 0 i s.

(** [c.upper()] for an ASCII character, and [s.upper()]. *)
Definition upper_char (c : ascii) : ascii :=
  let n := nat_of_ascii c in
  if (97 <=? n)%nat && (n <=? 122)%nat then ascii_of_nat (n - 32) else c.

Fixpoint upper_str (s : string) : string :=
  match s with
  | EmptyString => EmptyString
  | String c r => String (upper_char c) (upper_str r)
  end.

(** [ntpath.splitdrive] (CPython 3.11.2): a path that starts with two
    separators is a UNC or device path, whose drive runs up to the
    second separator found from [start] (8 after the prefix
    [\\?\UNC\], 2 otherwise) and is the whole path when there are fewer
    than two; a drive letter with its colon is split off as well. *)
Definition ntpath_splitdrive (p : string) : string * string :=
  if (2 <=? String.length p)%nat then
    let normp := replace_altsep p in
    if String.eqb (take_str 2 normp) "\\" then
      let start :=
        if String.eqb (upper_str (take_str 8 normp)) "\\?\UNC\" then 8%nat else 2%nat in
      match String.index start "\" normp with
      | None => (p, "")
      | Some index =>
          match String.index (index + 1) "\" normp with
          | None => (p, "")
          | Some index2 => (take_str index2 p, drop_str index2 p)
          end
      end
    else if String.eqb (String.substring 1 1 normp) ":" then
      (take_str 2 p, drop_str 2 p)
    else ("", p)
  else ("", p).

(** The part of [p] after its last separator; [None] when [p] has no
    separator. *)
Fixpoint after_last_sep (p : string) : option string :=
  match p with
  | EmptyString => None
  | String c r =>
      match after_last_sep r with
      | Some t => Some t
      | None => if is_ntsep c then Some r else None
      end
  end.

(** [ntpath.basename(p)], the second component of [ntpath.split(p)]:
    the index [i] walks back from the end of the drive-less path to its
    last separator, and the tail is [p[i:]]. *)
Definition ntpath_basename (p : string) : string :=
  let rest := snd (ntpath_splitdrive p) in
  default rest (after_last_sep rest).

(** [p.rfind(c)], [-1] when [c] does not occur. *)
Fixpoint rfind (c : ascii) (p : string) : Z :=
  match p with
  | EmptyString => -1
  | String a r =>
      let i := rfind c r in
      if 0 <=? i then i + 1
      else if bool_decide (a = c) then 0 else -1
  end.

(** [genericpath._splitext(p, '/', None, '.')], that is
    [os.path.splitext(p)] on a POSIX host: the extension starts at the
    last dot of the last component, leading dots apart. *)
Definition os_path_splitext (p : string) : string * string :=
  let sepIndex := rfind "/" p in
  let dotIndex := rfind "." p in
  if sepIndex <? dotIndex then
    let filenameIndex := Z.to_nat (sepIndex + 1) in
    let dot := Z.to_nat dotIndex in
    if existsb (fun k => negb (String.eqb (String.substring k 1 p) "."))
               (seq filenameIndex (dot - filenameIndex))
    then (take_str dot p, drop_str dot p)
    else (p, "")
  else (p, "").

End PyPath.

Import PyFormat PyPath.

(** ** State and exceptions *)

(** The exceptions that reach the caller: [image_path[0]] on an empty
    sequence, a failing file operation, a failing image conversion. *)
Inductive exn : Type :=
| IndexError
| OSError
| ConversionError.

Inductive result (A : Type) : Type :=
| Ok (a : A)
| Raise (e : exn).
Arguments Ok {A} a.
Arguments Raise {A} e.

(** A computation over a mutable state [S]: an exception leaves the
    state as it was when it was raised (nothing is rolled back). *)
Definition M (S A : Type) : Type := S -> result A * S.

Definition ret {S A : Type} (a : A) : M S A := fun s => (Ok a, s).

Definition raise {S A : Type} (e : exn) : M S A := fun s => (Raise e, s).

Definition bind {S A B : Type} (m : M S A) (k : A -> M S B) : M S B :=
  fun s =>
    match m s with
    | (Ok a, s') => k a s'
    | (Raise e, s') => (Raise e, s')
    end.

Notation "x <- m ;; k" := (bind m (fun x => k))
  (at level 100, m at next level, right associativity).
Notation "m ;; k" := (bind m (fun _ => k))
  (at level 100, right associativity).

(** [for x in items: body(x)]. *)
Fixpoint for_each {S A : Type} (items : list A) (body : A -> M S unit) : M S unit :=
  match items with
  | [] => ret tt
  | x :: rest => body x ;; for_each rest body
  end.

(** A [for] loop that updates local variables [L] of the enclosing
    function. *)
Fixpoint for_fold {S A L : Type} (items : list A) (body : A -> L -> M S L)
    (locals : L) : M S L :=
  match items with
  | [] => ret locals
  | x :: rest => locals' <- body x locals ;; for_fold rest body locals'
  end.

(** Running a computation on the second component of a pair state (the
    first one holds the object the caller works on). *)
Definition lift {O S A : Type} (m : M S A) : M (O * S) A :=
  fun os =>
    match m (snd os) with
    | (r, s') => (r, (fst os, s'))
    end.

(** ** The world: files, directories, standard output *)

Record World : Type := mkWorld {
  files : gmap string string;
  dirs : gset string;
  stdout : string
}.

Definition set_files (f : gmap string string) (w : World) : World :=
  {| files := f; dirs := dirs w; stdout := stdout w |}.

Definition set_dirs (d : gset string) (w : World) : World :=
  {| files := files w; dirs := d; stdout := stdout w |}.

Definition set_stdout (o : string) (w : World) : World :=
  {| files := files w; dirs := dirs w; stdout := o |}.

(** The newline character. *)
Definition nl : string := String (ascii_of_nat 10) EmptyString.

(** The collaborators of the module ([utils.tensor2im], the PNG encoder
    behind [utils.save_image]) and the environment ([writable] tells
    whether a file operation on a path succeeds in a world). *)
Class Backend : Type := {
  Image : Type;
  Array : Type;
  Mode : Type;
  tensor2im : Image -> option (Array * Mode);
  png_bytes : Array -> Mode -> string;
  writable : World -> string -> bool
}.

(** The HTML index builder of [html.py].
    Modelled from the spec: [html.HTML] is not part of the sources; the
    builder exposes [addSection(title)] and
    [addImageRow(filenames, captions, links, width)], and keeps its image
    directory. *)
Inductive html_item : Type :=
| Section_header (title : string)
| Image_row (ims txts links : list string) (width : Z).

Record HTML : Type := mkHTML {
  html_img_dir : string;
  doc : list html_item
}.

(** The [opt] object, of which the module reads two fields. *)
Record Opt : Type := mkOpt {
  opt_name : string;
  checkpoints_dir : string
}.

(** The fields of a [Visualizer] instance. *)
Record Visualizer : Type := mkVisualizer {
  opt : Opt;
  name : string;
  saved : bool;
  img_dir : string;
  log_name : string
}.

Definition set_saved (b : bool) (v : Visualizer) : Visualizer :=
  {| opt := opt v; name := name v; saved := b; img_dir := img_dir v;
     log_name := log_name v |}.

(** [image_path] of [save_images]: a string, or a list of strings. *)
Inductive PathHint : Type :=
| HintStr (s : string)
| HintList (l : list string).

Section Visualizer.

Context `{B : Backend}.

(** [os.path.exists(path)]. *)
Definition os_path_exists (path : string) : M World bool :=
  fun w => (Ok (bool_decide (path ∈ dirs w) || bool_decide (path ∈ dom (files w))), w).

(** [os.mkdir(path)]. *)
Definition os_mkdir (path : string) : M World unit :=
  fun w =>
    if writable w path then (Ok tt, set_dirs ({[path]} ∪ dirs w) w)
    else (Raise OSError, w).

(** [with open(path, "a") as f: f.write(text)]: the file is created
    when absent, and [text] goes after what it holds. *)
Definition append_file (path text : string) : M World unit :=
  fun w =>
    if writable w path then
      (Ok tt, set_files (<[path := default "" (files w !! path) +:+ text]> (files w)) w)
    else (Raise OSError, w).

(** [print(message)]. *)
Definition print (message : string) : M World unit :=
  fun w => (Ok tt, set_stdout (stdout w +:+ message +:+ nl) w).

(** [utils.tensor2im(image)], raising when the image is malformed. *)
Definition utils_tensor2im {S : Type} (image : Image) : M S (Array * Mode) :=
  match tensor2im image with
  | Some r => ret r
  | None => raise ConversionError
  end.

(** [utils.save_image(im, path, mode)].
    Modelled from the spec: [utils.py] is not part of the sources; the
    writer exposes [write(array, path, colorMode)] and stores the PNG
    encoding of the array at the path, replacing what was there. *)
Definition utils_save_image (im : Array) (path : string) (mode : Mode) : M World unit :=
  fun w =>
    if writable w path then (Ok tt, set_files (<[path := png_bytes im mode]> (files w)) w)
    else (Raise OSError, w).

(** [utils.mkdirs(path)].
    Modelled from the spec: [utils.py] is not part of the sources; the
    directory is created if absent, and it is no error if it exists. *)
Definition utils_mkdirs (path : string) : M World unit :=
  present <- os_path_exists path ;;
  if present then ret tt else os_mkdir path.

(** *** [save_images] *)

Definition get_image_dir : M (HTML * World) string :=
  fun s => (Ok (html_img_dir (fst s)), s).

Definition add_header (text : string) : M (HTML * World) unit :=
  fun s => (Ok tt, ({| html_img_dir := html_img_dir (fst s);
                       doc := (doc (fst s) ++ [Section_header text])%list |}, snd s)).

(** [image_path[0]]: the first element of a list, the first character
    of a string; [IndexError] when there is none. *)
Definition index0 {S : Type} (image_path : PathHint) : M S string :=
  match image_path with
  | HintStr (String c _) => ret (String c EmptyString)
  | HintList (p :: _) => ret p
  | _ => raise IndexError
  end.

Definition save_images (visuals : list (string * Image)) (image_path : PathHint)
    (aspect_ratio : spec_float) (width : Z) (use_wandb : bool) : M (HTML * World) unit :=
  image_dir <- get_image_dir ;;
  first <- index0 image_path ;;
  let short_path := ntpath_basename first in
  let name := fst (os_path_splitext short_path) in
  add_header name ;;
  for_fold visuals
    (fun '(label, im_data) '(ims, txts, links) =>
       converted <- utils_tensor2im im_data ;;
       let '(im, mode) := converted in
       let image_name := name +:+ "_" +:+ label +:+ ".png" in
       let save_path := os_path_join image_dir [image_name] in
       lift (utils_save_image im save_path mode) ;;
       ret ((ims ++ [image_name])%list, (txts ++ [label])%list, (links ++ [image_name])%list))
    ([], [], []) ;;
  ret tt.

(** *** [display_test_results] *)

Definition display_test_results (results_dir : string) (visuals : list (string * Image))
    (iter : Z) : M World unit :=
  present <- os_path_exists results_dir ;;
  (if negb present then os_mkdir results_dir else ret tt) ;;
  for_each visuals
    (fun '(label, image) =>
       converted <- utils_tensor2im image ;;
       let '(image_numpy, mode) := converted in
       let img_path :=
         os_path_join results_dir ["iter" +:+ fmt_p3d iter +:+ "_" +:+ label +:+ ".png"] in
       utils_save_image image_numpy img_path mode).

(** *** The [Visualizer] class *)

(** [Visualizer.__init__(opt)]; [now] is [time.strftime("%c")]. *)
Definition Visualizer_init (opt : Opt) (now : string) : M World Visualizer :=
  let img_dir := os_path_join (checkpoints_dir opt) [opt_name opt; "images"] in
  utils_mkdirs img_dir ;;
  let log_name := os_path_join (checkpoints_dir opt) [opt_name opt; "loss_log.txt"] in
  append_file log_name
    ("================ Training Loss (" +:+ now +:+ ") ================" +:+ nl) ;;
  ret {| opt := opt; name := opt_name opt; saved := false; img_dir := img_dir;
         log_name := log_name |}.

Definition get_self {S : Type} : M (Visualizer * S) Visualizer :=
  fun s => (Ok (fst s), s).

Definition put_saved {S : Type} (b : bool) : M (Visualizer * S) unit :=
  fun s => (Ok tt, (set_saved b (fst s), snd s)).

Definition reset : M (Visualizer * World) unit :=
  put_saved false.

Definition display_current_results (visuals : list (string * Image)) (epoch iter : Z)
    (save_result : bool) : M (Visualizer * World) unit :=
  self <- get_self ;;
  if save_result || negb (saved self) then
    put_saved true ;;
    for_each visuals
      (fun '(label, image) =>
         converted <- utils_tensor2im image ;;
       let '(image_numpy, mode) := converted in
         self <- get_self ;;
         let img_path :=
           os_path_join (img_dir self)
             ["epoch" +:+ fmt_p3d epoch +:+ "_iter" +:+ fmt_p3d iter +:+ "_"
                +:+ label +:+ ".png"] in
         lift (utils_save_image image_numpy img_path mode))
  else ret tt.

Definition print_current_losses (epoch iters : Z) (losses : list (string * spec_float))
    (t_comp t_data : spec_float) : M (Visualizer * World) unit :=
  let message :=
    "(epoch: " +:+ fmt_d epoch +:+ ", iters: " +:+ fmt_d iters +:+ ", time: "
      +:+ fmt_f3 t_comp +:+ ", data: " +:+ fmt_f3 t_data +:+ ") " in
  let message :=
    fold_left (fun message '(k, v) => message +:+ (k +:+ ": " +:+ fmt_f3 v +:+ " "))
      losses message in
  lift (print message) ;;
  self <- get_self ;;
  lift (append_file (log_name self) (message +:+ nl)).

End Visualizer.

(** ** Definitions for the statements *)

(** The last character of a string. *)
Fixpoint last_char (s : string) : option ascii :=
  match s with
  | EmptyString => None
  | String c EmptyString => Some c
  | String _ r => last_char r
  end.

(** [f] placed in the directory [d]: the second and third branches of
    the loop of [posixpath.join]. *)
Definition in_dir (d f : string) : string :=
  (if is_empty d || endswith_slash d then d else d +:+ "/") +:+ f.

(** Whether a string holds one of the separators of [ntpath]. *)
Fixpoint has_ntsep (s : string) : bool :=
  match s with
  | EmptyString => false
  | String c r => is_ntsep c || has_ntsep r
  end.

(** The invariant of the class: the two paths are the ones the
    constructor derives from [opt]. *)
Definition well_formed (v : Visualizer) : Prop :=
  img_dir v = os_path_join (checkpoints_dir (opt v)) [opt_name (opt v); "images"]
  /\ log_name v = os_path_join (checkpoints_dir (opt v)) [opt_name (opt v); "loss_log.txt"].

(** The path of the code, written out: [%.3d] for both numbers. *)
Definition plain_epoch_path (img_dir : string) (epoch iter : Z) (label : string) : string :=
  img_dir +:+ "/epoch" +:+ fmt_p3d epoch +:+ "_iter" +:+ fmt_p3d iter +:+ "_"
    +:+ label +:+ ".png".

(** The path of the specification: [{epoch:03d}] and [{iter:03d}]. *)
Definition spec_epoch_path (img_dir : string) (epoch iter : Z) (label : string) : string :=
  img_dir +:+ "/epoch" +:+ fmt_03d epoch +:+ "_iter" +:+ fmt_03d iter +:+ "_"
    +:+ label +:+ ".png".

Section Statements.

Context `{B : Backend}.

(** The body of each of the three loops, the path being given as a
    function of the label. *)
Definition write_one (path_of : string -> string) (v : string * Image) : M World unit :=
  match tensor2im (snd v) with
  | Some (im, mode) => utils_save_image im (path_of (fst v)) mode
  | None => raise ConversionError
  end.

Definition write_pass (path_of : string -> string) (visuals : list (string * Image)) :
    M World unit :=
  for_each visuals (write_one path_of).

(** The files once an image is stored, and once the images of
    [visuals] are, in order. *)
Definition store_one (path_of : string -> string) (fs : gmap string string)
    (v : string * Image) : gmap string string :=
  match tensor2im (snd v) with
  | Some (im, mode) => <[path_of (fst v) := png_bytes im mode]> fs
  | None => fs
  end.

Definition stored (path_of : string -> string) (visuals : list (string * Image))
    (fs : gmap string string) : gmap string string :=
  fold_left (store_one path_of) visuals fs.

Definition convertible (v : string * Image) : Prop := is_Some (tensor2im (snd v)).

(** The paths of the three operations. *)
Definition sample_path (image_dir name label : string) : string :=
  os_path_join image_dir [name +:+ "_" +:+ label +:+ ".png"].

Definition iter_path (results_dir : string) (iter : Z) (label : string) : string :=
  os_path_join results_dir ["iter" +:+ fmt_p3d iter +:+ "_" +:+ label +:+ ".png"].

Definition epoch_path (img_dir : string) (epoch iter : Z) (label : string) : string :=
  os_path_join img_dir
    ["epoch" +:+ fmt_p3d epoch +:+ "_iter" +:+ fmt_p3d iter +:+ "_" +:+ label +:+ ".png"].

(** [image_path[0]] as a value. *)
Definition first_of (image_path : PathHint) : option string :=
  match image_path with
  | HintStr (String c _) => Some (String c EmptyString)
  | HintList (p :: _) => Some p
  | _ => None
  end.

(** The base name [save_images] derives from [image_path[0]]. *)
Definition base_name (first : string) : string :=
  fst (os_path_splitext (ntpath_basename first)).

Definition with_header (name : string) (h : HTML) : HTML :=
  {| html_img_dir := html_img_dir h; doc := (doc h ++ [Section_header name])%list |}.

(** [os.path.exists(path)] as a value. *)
Definition path_exists (path : string) (w : World) : bool :=
  bool_decide (path ∈ dirs w) || bool_decide (path ∈ dom (files w)).

(** The line [print_current_losses] builds. *)
Definition loss_message (epoch iters : Z) (losses : list (string * spec_float))
    (t_comp t_data : spec_float) : string :=
  fold_left (fun message '(k, v) => message +:+ (k +:+ ": " +:+ fmt_f3 v +:+ " "))
    losses
    ("(epoch: " +:+ fmt_d epoch +:+ ", iters: " +:+ fmt_d iters +:+ ", time: "
       +:+ fmt_f3 t_comp +:+ ", data: " +:+ fmt_f3 t_data +:+ ") ").

(** The content of a file once [text] is appended to it. *)
Definition appended (path text : string) (fs : gmap string string) : gmap string string :=
  <[path := default "" (fs !! path) +:+ text]> fs.

(** The header line of the log. *)
Definition log_header (now : string) : string :=
  "================ Training Loss (" +:+ now +:+ ") ================" +:+ nl.

Definition new_visualizer (o : Opt) : Visualizer :=
  {| opt := o; name := opt_name o; saved := false;
     img_dir := os_path_join (checkpoints_dir o) [opt_name o; "images"];
     log_name := os_path_join (checkpoints_dir o) [opt_name o; "loss_log.txt"] |}.

(** A write pass that raised: it stopped at the image of index [k],
    which the converter or the writer refused; the [k] images before it
    are stored, and nothing else was written. *)
Definition stopped_at (path_of : string -> string) (visuals : list (string * Image))
    (w w' : World) (k : nat) : Prop :=
  (exists v, visuals !! k = Some v
             /\ (tensor2im (snd v) = None \/ writable w' (path_of (fst v)) = false))
  /\ Forall convertible (take k visuals)
  /\ files w' = stored path_of (take k visuals) (files w).

(** An image that cannot be saved in the world [w]: the converter
    rejects it, or its file cannot be written; and the exception the
    loop body raises on it (the conversion comes first). *)
Definition fails_in (path_of : string -> string) (v : string * Image) (w : World) : Prop :=
  tensor2im (snd v) = None \/ writable w (path_of (fst v)) = false.

Definition failure_of (v : string * Image) : exn :=
  match tensor2im (snd v) with
  | None => ConversionError
  | Some _ => OSError
  end.

End Statements.

(** ** Sessions of a logger *)

(** The operations of a logger, as the training loop calls them. *)
Inductive op `{B : Backend} : Type :=
| OpReset
| OpDisplay (visuals : list (string * Image)) (epoch iter : Z) (save_result : bool)
| OpPrintLosses (epoch iters : Z) (losses : list (string * spec_float))
    (t_comp t_data : spec_float).

Definition run_op `{B : Backend} (o : op) : M (Visualizer * World) unit :=
  match o with
  | OpReset => reset
  | OpDisplay visuals epoch iter save_result =>
      display_current_results visuals epoch iter save_result
  | OpPrintLosses epoch iters losses t_comp t_data =>
      print_current_losses epoch iters losses t_comp t_data
  end.

Definition run_ops `{B : Backend} (ops : list op) : M (Visualizer * World) unit :=
  for_each ops run_op.



(** ** A concrete backend for the examples *)

Module Demo.

(** Images are optional strings ([None] is an image the converter
    rejects), the PNG encoding of an array is the array itself, and the
    paths under [/ro/] cannot be written. *)
Definition backend : Backend :=
  {| Image := option string;
     Array := string;
     Mode := unit;
     tensor2im := fun i => match i with Some a => Some (a, tt) | None => None end;
     png_bytes := fun a _ => a;
     writable := fun _ p => negb (String.prefix "/ro/" p) |}.

Definition empty_world : World := {| files := ∅; dirs := ∅; stdout := "" |}.

Definition webpage : HTML := {| html_img_dir := "web/images"; doc := [] |}.

Definition options : Opt := {| opt_name := "exp"; checkpoints_dir := "ckpt" |}.

Definition visualizer : Visualizer := {|
  opt := options; name := "exp"; saved := false;
  img_dir := "ckpt/exp/images"; log_name := "ckpt/exp/loss_log.txt" |}.

Definition two_images : list (string * option string) :=
  [("real", Some "R"); ("fake", Some "F")].

End Demo.

Module Quota.

(** The backend of [Demo] on a disk that holds one file: a write
    succeeds only while no file exists. *)
Definition backend : Backend :=
  {| Image := option string;
     Array := string;
     Mode := unit;
     tensor2im := fun i => match i with Some a => Some (a, tt) | None => None end;
     png_bytes := fun a _ => a;
     writable := fun w _ => (size (files w) <? 1)%nat |}.

End Quota.

Module LossExample.

(** The floats of the example: the literals [1.2345], [0.5], [0.100]
    and [0.020] denote the nearest binary64 values. *)
Definition losses : list (string * spec_float) :=
  [("G", double_of_ratio 12345 10000); ("D", double_of_ratio 1 2)].

Definition t_comp : spec_float := double_of_ratio 100 1000.

Definition t_data : spec_float := double_of_ratio 20 1000.

(** The line the specification gives for the example. *)
Definition spec_line : string :=
  "(epoch: 3, iters: 10, time: 0.100, data: 0.020) G: 1.235 D: 0.500 ".

(** The line the code builds. *)
Definition line : string :=
  "(epoch: 3, iters: 10, time: 0.100, data: 0.020) G: 1.234 D: 0.500 ".

End LossExample.

Module Session.




End Session.

(** ** Definitions for the properties of names, lines and sessions *)

(** Whether the character [c] occurs in [s]. *)
Fixpoint has_char (c : ascii) (s : string) : bool :=
  match s with
  | EmptyString => false
  | String a r => bool_decide (a = c) || has_char c r
  end.

Definition is_digit (c : ascii) : bool := has_char c "0123456789".

(** Whether [s] ends with [suffix]: [s.endswith(suffix)]. *)
Definition ends_with (suffix s : string) : bool :=
  String.eqb (drop_str (String.length s - String.length suffix) s) suffix.

(** The number a string of decimal digits denotes, the most
    significant digit first, and the integer a signed one denotes. *)
Definition digit_value (c : ascii) : N := (N_of_ascii c - 48)%N.

Fixpoint digits_value (acc : N) (s : string) : N :=
  match s with
  | EmptyString => acc
  | String c r => digits_value (acc * 10 + digit_value c) r
  end.

Definition read_int (s : string) : Z :=
  if has_char "-" s then
    match s with
    | String _ r => - Z.of_N (digits_value 0 r)
    | EmptyString => 0
    end
  else Z.of_N (digits_value 0 s).

(** The operations that do not force a write pass: the calls of
    [print_current_losses] and of [display_current_results] with
    [save_result = False]. *)
Definition unforced `{B : Backend} (o : op) : bool :=
  match o with
  | OpReset => false
  | OpDisplay _ _ _ save_result => negb save_result
  | OpPrintLosses _ _ _ _ _ => true
  end.

(** Runs of the operations on the concrete backend. *)
Module Runs.

Definition displayed : result unit * (Visualizer * World) :=
  display_current_results (B := Demo.backend) Demo.two_images 3 10 true
    (Demo.visualizer, Demo.empty_world).

Definition tested : result unit * World :=
  display_test_results (B := Demo.backend) "out" Demo.two_images 7 Demo.empty_world.

Definition saved_page : result unit * (HTML * World) :=
  save_images (B := Demo.backend) Demo.two_images (HintList ["/data/img1.png"]) S754_nan 256
    false (Demo.webpage, Demo.empty_world).

Definition printed : result unit * (Visualizer * World) :=
  print_current_losses (B := Demo.backend) 3 10 LossExample.losses LossExample.t_comp
    LossExample.t_data (Demo.visualizer, Demo.empty_world).

Definition constructed : result Visualizer * World :=
  Visualizer_init (B := Demo.backend) Demo.options "now" Demo.empty_world.

Definition unforced_calls : list (op (B := Demo.backend)) :=
  [@OpPrintLosses Demo.backend 3 10 LossExample.losses LossExample.t_comp
     LossExample.t_data;
   @OpDisplay Demo.backend Demo.two_images 4 1 false].

Definition after_unforced_calls : result unit * (Visualizer * World) :=
  run_ops unforced_calls (set_saved true Demo.visualizer, Demo.empty_world).

End Runs.

(** ** Facts on strings and paths *)

Section StringFacts.

Lemma str_app_cons (c : ascii) (s t : string) : String c s +:+ t = String c (s +:+ t).
Proof. reflexivity. Qed.

Lemma str_app_nil_l (t : string) : "" +:+ t = t.
Proof. reflexivity. Qed.

Lemma str_app_nil_r (s : string) : s +:+ "" = s.
Proof. induction s as [|c s IH]; [reflexivity | now rewrite str_app_cons, IH]. Qed.

Lemma str_app_assoc (s t u : string) : (s +:+ t) +:+ u = s +:+ (t +:+ u).
Proof. induction s as [|c s IH]; [reflexivity | now rewrite !str_app_cons, IH]. Qed.

Lemma str_app_length (s t : string) :
  String.length (s +:+ t) = (String.length s + String.length t)%nat.
Proof.
  induction s as [|c s IH]; [reflexivity | rewrite str_app_cons; simpl; now rewrite IH].
Qed.

Lemma str_app_inv_tail (t s1 s2 : string) : s1 +:+ t = s2 +:+ t -> s1 = s2.
Proof.
  revert s2. induction s1 as [|c s1 IH]; intros [|c' s2] H;
    rewrite ?str_app_cons, ?str_app_nil_l in H.
  - reflexivity.
  - apply (f_equal String.length) in H. simpl in H. rewrite str_app_length in H. lia.
  - apply (f_equal String.length) in H. simpl in H. rewrite str_app_length in H. lia.
  - injection H as -> H. f_equal. now apply IH.
Qed.

Lemma last_char_app (s t : string) :
  is_empty t = false -> last_char (s +:+ t) = last_char t.
Proof.
  intros Ht. induction s as [|c s IH]; [reflexivity|].
  rewrite str_app_cons. simpl.
  destruct (s +:+ t) eqn:E; [|exact IH].
  destruct s; rewrite ?str_app_cons, ?str_app_nil_l in E; [subst t|]; discriminate.
Qed.

Lemma endswith_slash_last (s : string) :
  endswith_slash s = match last_char s with Some c => is_slash c | None => false end.
Proof.
  induction s as [|c s IH]; simpl; [reflexivity|].
  destruct s; [reflexivity | exact IH].
Qed.

Lemma is_empty_app (s t : string) : is_empty t = false -> is_empty (s +:+ t) = false.
Proof. destruct s; [rewrite str_app_nil_l | rewrite str_app_cons]; simpl; auto. Qed.

Lemma startswith_slash_app (s t : string) :
  is_empty s = false -> startswith_slash (s +:+ t) = startswith_slash s.
Proof. destruct s; [discriminate | reflexivity]. Qed.

End StringFacts.

Section PathFacts.

Lemma join_step_in_dir (d f : string) :
  startswith_slash f = false -> join_step d f = in_dir d f.
Proof.
  intros Hf. unfold join_step, in_dir. rewrite Hf.
  destruct (is_empty d || endswith_slash d); [reflexivity|].
  now rewrite str_app_assoc.
Qed.

Lemma in_dir_inj (d : string) : Inj (=) (=) (in_dir d).
Proof. intros f g H. unfold in_dir in H. now apply String.app_inj in H. Qed.


(** A plain directory name followed by a last component: the usual
    shape [d/f]. *)
Lemma in_dir_plain (d f : string) :
  is_empty d = false -> endswith_slash d = false -> in_dir d f = d +:+ "/" +:+ f.
Proof. intros H1 H2. unfold in_dir. rewrite H1, H2. apply str_app_assoc. Qed.

Lemma after_last_sep_spec (p : string) :
  match after_last_sep p with
  | Some t => has_ntsep t = false
  | None => has_ntsep p = false
  end.
Proof.
  induction p as [|c p IH]; simpl; [reflexivity|].
  destruct (after_last_sep p) as [t|]; [exact IH|].
  destruct (is_ntsep c) eqn:Ec; simpl; [exact IH|].
  exact IH.
Qed.

Lemma ntpath_basename_no_sep (p : string) : has_ntsep (ntpath_basename p) = false.
Proof.
  unfold ntpath_basename.
  pose proof (after_last_sep_spec (snd (ntpath_splitdrive p))) as H.
  destruct (after_last_sep (snd (ntpath_splitdrive p))); exact H.
Qed.

(** The values of [ntpath.basename] on drive, UNC and device paths. *)
Lemma ntpath_basename_samples :
  map ntpath_basename
    ["/data/img1.png"; "C:\a\b.jpg"; "C:foo"; "a\b/c.d.e"; "a/b/"; "//img1.png"; "///a";
     "//host/share"; "//host/share/x.y"; "//?/UNC/s/h/x.png"; "//?/unc/s/h";
     "//?/UNCx/a/b/c"; "//./dev/x"; "////a/b"; "//a//b/c"; "//a\b/c"]
  = ["img1.png"; "b.jpg"; "foo"; "c.d.e"; ""; ""; "";
     ""; "x.y"; "x.png"; "";
     "c"; "x"; "b"; "c"; "c"].
Proof. vm_compute. reflexivity. Qed.

Lemma no_sep_no_leading_slash (s : string) :
  has_ntsep s = false -> startswith_slash s = false.
Proof.
  destruct s as [|c s]; simpl; [reflexivity|].
  unfold is_ntsep, is_slash. intros H.
  apply orb_false_iff in H as [H _]. now apply orb_false_iff in H as [H _].
Qed.

Lemma take_str_leading_slash (n : nat) (s : string) :
  startswith_slash s = false -> startswith_slash (take_str n s) = false.
Proof. destruct s, n; simpl; auto. Qed.

Lemma splitext_leading_slash (p : string) :
  startswith_slash p = false -> startswith_slash (fst (os_path_splitext p)) = false.
Proof.
  intros H. unfold os_path_splitext.
  repeat match goal with |- context [if ?b then _ else _] => destruct b end;
    simpl; auto using take_str_leading_slash.
Qed.

(** The file name [save_images] builds never starts with a slash, so
    [os.path.join] keeps the directory in front of it. *)
Lemma image_name_in_dir (d p label : string) :
  let name := fst (os_path_splitext (ntpath_basename p)) in
  os_path_join d [name +:+ "_" +:+ label +:+ ".png"]
  = in_dir d (name +:+ "_" +:+ label +:+ ".png").
Proof.
  intros name. simpl. apply join_step_in_dir.
  assert (Hn : startswith_slash name = false).
  { apply splitext_leading_slash, no_sep_no_leading_slash, ntpath_basename_no_sep. }
  destruct name as [|c r]; [reflexivity | exact Hn].
Qed.


Lemma join_images_plain (a n : string) :
  let d := os_path_join a [n; "images"] in
  is_empty d = false /\ endswith_slash d = false.
Proof.
  simpl. rewrite (join_step_in_dir _ "images") by reflexivity. unfold in_dir. split.
  - now apply is_empty_app.
  - rewrite endswith_slash_last, last_char_app by reflexivity. reflexivity.
Qed.

End PathFacts.

(** ** The write pass shared by the three save operations *)

Section WritePass.

Context `{B : Backend}.

Lemma set_files_id (w : World) : set_files (files w) w = w.
Proof. now destruct w. Qed.

Lemma set_files_twice (f g : gmap string string) (w : World) :
  set_files g (set_files f w) = set_files g w.
Proof. reflexivity. Qed.

Lemma for_each_ext {S A : Type} (f g : A -> M S unit) (items : list A) (s : S) :
  (forall x s, f x s = g x s) -> for_each items f s = for_each items g s.
Proof.
  intros Hfg. revert s. induction items as [|x items IH]; intros s; [reflexivity|].
  simpl. unfold bind. rewrite Hfg. destruct (g x s) as [[a|e] s']; [apply IH | reflexivity].
Qed.

Lemma for_each_app {S A : Type} (f : A -> M S unit) (pre post : list A) (s : S) :
  for_each (pre ++ post) f s = (for_each pre f ;; for_each post f) s.
Proof.
  revert s. induction pre as [|x pre IH]; intros s; [reflexivity|].
  simpl. unfold bind in *. destruct (f x s) as [[a|e] s']; [apply IH | reflexivity].
Qed.

Lemma for_each_lift {O S A : Type} (f : A -> M S unit) (items : list A) (o : O) (s : S) :
  for_each items (fun x => lift (f x)) (o, s) = lift (for_each items f) (o, s).
Proof.
  revert s. induction items as [|x items IH]; intros s; [reflexivity|].
  simpl. unfold bind, lift in *. simpl in *.
  destruct (f x s) as [[a|e] s']; [rewrite IH | reflexivity]. reflexivity.
Qed.

(** One image: either it is converted and stored, or the exception
    leaves the world as it is. *)
Lemma write_one_run (path_of : string -> string) (v : string * Image) (w : World) :
  (write_one path_of v w = (Ok tt, set_files (store_one path_of (files w) v) w)
   /\ is_Some (tensor2im (snd v)) /\ writable w (path_of (fst v)) = true)
  \/ (exists e, write_one path_of v w = (Raise e, w)
      /\ (tensor2im (snd v) = None \/ writable w (path_of (fst v)) = false)).
Proof.
  unfold write_one, store_one, utils_save_image.
  destruct (tensor2im (snd v)) as [[im mode]|] eqn:Ec.
  - destruct (writable w (path_of (fst v))) eqn:Ew.
    + left. eauto.
    + right. exists OSError. auto.
  - right. exists ConversionError. auto.
Qed.

(** The write pass stops at the first image that fails: the [k] images
    before it are stored, the others are not attempted. *)
Lemma write_pass_run (path_of : string -> string) (visuals : list (string * Image))
    (w : World) (r : result unit) (w' : World) :
  write_pass path_of visuals w = (r, w') ->
  exists k : nat,
    w' = set_files (stored path_of (take k visuals) (files w)) w
    /\ Forall convertible (take k visuals)
    /\ match r with
       | Ok _ => k = length visuals
       | Raise e =>
           exists v, visuals !! k = Some v /\ write_one path_of v w' = (Raise e, w')
       end.
Proof.
  unfold write_pass. revert w. induction visuals as [|v visuals IH]; intros w H.
  - injection H as <- <-. exists 0%nat.
    split; [exact (eq_sym (set_files_id w)) | split; [constructor | reflexivity]].
  - simpl in H. unfold bind in H.
    destruct (write_one_run path_of v w) as [(Hv & Hc & _)|(e & Hv & _)]; rewrite Hv in H.
    + apply IH in H as (k & -> & Hk & Hr). exists (S k). split; [reflexivity|].
      split; [constructor; assumption|].
      destruct r as [u|e]; [now rewrite Hr | exact Hr].
    + injection H as <- <-. exists 0%nat. split; [exact (eq_sym (set_files_id w))|].
      split; [constructor|]. exists v. split; [reflexivity | exact Hv].
Qed.

Lemma write_pass_frame (path_of : string -> string) (visuals : list (string * Image))
    (w : World) :
  dirs (snd (write_pass path_of visuals w)) = dirs w
  /\ stdout (snd (write_pass path_of visuals w)) = stdout w.
Proof.
  destruct (write_pass path_of visuals w) as [r w'] eqn:E.
  apply write_pass_run in E as (k & -> & _ & _). split; reflexivity.
Qed.

End WritePass.

(** ** What each operation computes *)

Section RunEquations.

Context `{B : Backend}.

(** A loop whose body runs [f] on the world and updates local
    variables that are dropped afterwards is the loop of [f]. *)
Lemma for_fold_discard {O S A L : Type} (body : A -> L -> M (O * S) L)
    (f : A -> M S unit) (g : A -> L -> L) (items : list A) (acc : L) (o : O) (s : S) :
  (forall x l o s,
     body x l (o, s)
     = match f x s with
       | (Ok _, s') => (Ok (g x l), (o, s'))
       | (Raise e, s') => (Raise e, (o, s'))
       end) ->
  (for_fold items body acc ;; ret tt) (o, s) = lift (for_each items f) (o, s).
Proof.
  intros Hbody. revert acc s. induction items as [|x items IH]; intros acc s.
  - reflexivity.
  - specialize (IH (g x acc)). unfold bind, lift in *. simpl in *. unfold bind.
    rewrite Hbody. destruct (f x s) as [[u|e] s']; [apply IH | reflexivity].
Qed.

Lemma save_images_run (visuals : list (string * Image)) (image_path : PathHint)
    (aspect_ratio : spec_float) (width : Z) (use_wandb : bool) (h : HTML) (w : World) :
  save_images visuals image_path aspect_ratio width use_wandb (h, w)
  = match first_of image_path with
    | None => (Raise IndexError, (h, w))
    | Some first =>
        lift (write_pass (sample_path (html_img_dir h) (base_name first)) visuals)
          (with_header (base_name first) h, w)
    end.
Proof.
  unfold save_images, bind at 1. simpl.
  assert (Hi : forall s : HTML * World,
    index0 image_path s
    = match first_of image_path with Some p => (Ok p, s) | None => (Raise IndexError, s) end).
  { intros s. destruct image_path as [[|c r]|[|p l]]; reflexivity. }
  unfold bind at 1. rewrite Hi. destruct (first_of image_path) as [first|]; [|reflexivity].
  unfold bind at 1. simpl. fold (base_name first). fold (with_header (base_name first) h).
  unfold write_pass.
  apply (for_fold_discard _ _
    (fun v l => let '(ims, txts, links) := l in
       ((ims ++ [base_name first +:+ "_" +:+ fst v +:+ ".png"])%list,
        (txts ++ [fst v])%list,
        (links ++ [base_name first +:+ "_" +:+ fst v +:+ ".png"])%list))).
  intros [label im_data] [[ims txts] links] o s.
  unfold write_one, utils_tensor2im, sample_path, bind, lift, ret, raise. cbn [fst snd].
  destruct (tensor2im im_data) as [[im mode]|]; [|reflexivity]. cbn [fst snd].
  destruct (utils_save_image im _ mode s) as [[[]|e] s']; reflexivity.
Qed.

Lemma display_test_results_run (results_dir : string) (visuals : list (string * Image))
    (iter : Z) (w : World) :
  display_test_results results_dir visuals iter w
  = if path_exists results_dir w then write_pass (iter_path results_dir iter) visuals w
    else if writable w results_dir then
      write_pass (iter_path results_dir iter) visuals
        (set_dirs ({[results_dir]} ∪ dirs w) w)
    else (Raise OSError, w).
Proof.
  unfold display_test_results, bind at 1. unfold os_path_exists. fold (path_exists results_dir w).
  assert (Hloop : forall w0,
    for_each visuals
      (fun '(label, image) =>
         converted <- utils_tensor2im image ;;
         let '(image_numpy, mode) := converted in
         utils_save_image image_numpy
           (os_path_join results_dir ["iter" +:+ fmt_p3d iter +:+ "_" +:+ label +:+ ".png"])
           mode) w0
    = write_pass (iter_path results_dir iter) visuals w0).
  { intros w0. apply for_each_ext. intros [label image] s.
    unfold write_one, utils_tensor2im, iter_path, bind, raise, ret. cbn [fst snd].
    destruct (tensor2im image) as [[im mode]|]; reflexivity. }
  destruct (path_exists results_dir w); unfold bind at 1; simpl.
  - apply Hloop.
  - unfold os_mkdir. destruct (writable w results_dir); [apply Hloop | reflexivity].
Qed.

(** A loop whose body reads the object and works on the world. *)
Lemma for_each_reading {O S A : Type} (body : A -> M (O * S) unit) (f : O -> A -> M S unit)
    (items : list A) (o : O) (s : S) :
  (forall x o s, body x (o, s) = lift (f o x) (o, s)) ->
  for_each items body (o, s) = lift (for_each items (f o)) (o, s).
Proof.
  intros Hbody. revert s. induction items as [|x items IH]; intros s; [reflexivity|].
  simpl. unfold bind. rewrite Hbody. unfold lift in *. cbn [fst snd] in *.
  destruct (f o x s) as [[u|e] s']; [apply IH | reflexivity].
Qed.

Lemma display_current_results_run (visuals : list (string * Image)) (epoch iter : Z)
    (save_result : bool) (self : Visualizer) (w : World) :
  display_current_results visuals epoch iter save_result (self, w)
  = if save_result || negb (saved self) then
      lift (write_pass (epoch_path (img_dir self) epoch iter) visuals)
        (set_saved true self, w)
    else (Ok tt, (self, w)).
Proof.
  unfold display_current_results, bind at 1. unfold get_self at 1. cbn [fst snd].
  destruct (save_result || negb (saved self)); [|reflexivity].
  unfold bind at 1. unfold put_saved. cbn [fst snd].
  unfold write_pass. change (img_dir self) with (img_dir (set_saved true self)).
  apply (for_each_reading _ (fun o => write_one (epoch_path (img_dir o) epoch iter))).
  intros [label image] o s.
  unfold write_one, utils_tensor2im, epoch_path, get_self, bind, lift, raise, ret.
  cbn [fst snd]. destruct (tensor2im image) as [[im mode]|]; reflexivity.
Qed.

Lemma reset_run (self : Visualizer) (w : World) :
  reset (self, w) = (Ok tt, (set_saved false self, w)).
Proof. reflexivity. Qed.

Lemma print_current_losses_run (epoch iters : Z) (losses : list (string * spec_float))
    (t_comp t_data : spec_float) (self : Visualizer) (w : World) :
  let message := loss_message epoch iters losses t_comp t_data in
  let w1 := set_stdout (stdout w +:+ message +:+ nl) w in
  print_current_losses epoch iters losses t_comp t_data (self, w)
  = if writable w1 (log_name self) then
      (Ok tt, (self, set_files (appended (log_name self) (message +:+ nl) (files w)) w1))
    else (Raise OSError, (self, w1)).
Proof.
  intros message w1. subst message w1.
  unfold print_current_losses, bind, lift, print, get_self, append_file, loss_message.
  cbn [fst snd].
  match goal with |- context [writable ?a ?b] => destruct (writable a b) end; reflexivity.
Qed.

Lemma Visualizer_init_run (o : Opt) (now : string) (w : World) :
  let self := new_visualizer o in
  let w1 := if path_exists (img_dir self) w then w
            else set_dirs ({[img_dir self]} ∪ dirs w) w in
  Visualizer_init o now w
  = if path_exists (img_dir self) w || writable w (img_dir self) then
      if writable w1 (log_name self) then
        (Ok self, set_files (appended (log_name self) (log_header now) (files w)) w1)
      else (Raise OSError, w1)
    else (Raise OSError, w).
Proof.
  intros self w1. subst self w1.
  unfold Visualizer_init, utils_mkdirs, os_path_exists, os_mkdir, append_file, bind, ret,
    path_exists, appended, log_header, new_visualizer.
  cbn [img_dir log_name].
  repeat (match goal with
          | |- context [if ?b then _ else _] => destruct b eqn:?
          end; cbn [orb]); reflexivity.
Qed.

End RunEquations.

(** ** Facts on the stored files *)

Section StoredFacts.

Context `{B : Backend}.

Lemma stored_app (path_of : string -> string) (pre post : list (string * Image))
    (fs : gmap string string) :
  stored path_of (pre ++ post) fs = stored path_of post (stored path_of pre fs).
Proof. unfold stored. apply fold_left_app. Qed.

Lemma store_one_lookup_ne (path_of : string -> string) (fs : gmap string string)
    (v : string * Image) (k : string) :
  path_of (fst v) ≠ k -> store_one path_of fs v !! k = fs !! k.
Proof.
  intros Hne. unfold store_one. destruct (tensor2im (snd v)) as [[im mode]|]; [|reflexivity].
  now apply lookup_insert_ne.
Qed.

Lemma stored_lookup_other (path_of : string -> string) (visuals : list (string * Image))
    (fs : gmap string string) (k : string) :
  k ∉ map (fun v => path_of (fst v)) visuals -> stored path_of visuals fs !! k = fs !! k.
Proof.
  revert fs. induction visuals as [|v visuals IH]; intros fs Hk; [reflexivity|].
  simpl in Hk. apply not_elem_of_cons in Hk as [Hne Hk].
  change (stored path_of (v :: visuals) fs)
    with (stored path_of visuals (store_one path_of fs v)).
  rewrite IH by exact Hk. apply store_one_lookup_ne. congruence.
Qed.



Lemma stored_dom (path_of : string -> string) (visuals : list (string * Image))
    (fs : gmap string string) :
  Forall convertible visuals ->
  dom (stored path_of visuals fs)
  = dom fs ∪ list_to_set (map (fun v => path_of (fst v)) visuals).
Proof.
  revert fs. induction visuals as [|v visuals IH]; intros fs Hc.
  - simpl. now rewrite (right_id_L ∅ (∪)).
  - apply Forall_cons in Hc as [[[im mode] Hv] Hc].
    change (stored path_of (v :: visuals) fs)
      with (stored path_of visuals (store_one path_of fs v)).
    rewrite IH by exact Hc. unfold store_one. rewrite Hv, dom_insert_L. simpl.
    rewrite (comm_L (∪) {[path_of (fst v)]} (dom fs)). now rewrite <- (assoc_L (∪)).
Qed.

(** With distinct labels and paths that tell labels apart, each label
    ends up with the encoding of its own image. *)
Lemma stored_lookup_label (path_of : string -> string) (visuals : list (string * Image))
    (fs : gmap string string) (label : string) (image : Image) (im : Array) (mode : Mode) :
  Inj (=) (=) path_of -> NoDup (map fst visuals) ->
  (label, image) ∈ visuals -> tensor2im image = Some (im, mode) ->
  stored path_of visuals fs !! path_of label = Some (png_bytes im mode).
Proof.
  intros Hinj. revert fs. induction visuals as [|v visuals IH]; intros fs Hnd Hin Hconv.
  - now apply elem_of_nil in Hin.
  - simpl in Hnd. apply NoDup_cons in Hnd as [Hfresh Hnd].
    change (stored path_of (v :: visuals) fs)
      with (stored path_of visuals (store_one path_of fs v)).
    apply elem_of_cons in Hin as [<-|Hin]; [|now apply IH].
    rewrite stored_lookup_other.
    + unfold store_one. simpl. rewrite Hconv. apply lookup_insert_eq.
    + intros Hk. apply Hfresh. apply list_elem_of_fmap in Hk as ([l i] & Hp & Hk).
      apply Hinj in Hp. simpl in Hp. subst l.
      apply list_elem_of_fmap. exists (label, i). split; [reflexivity | exact Hk].
Qed.

Lemma write_pass_ok_convertible (path_of : string -> string)
    (visuals : list (string * Image)) (w w' : World) :
  write_pass path_of visuals w = (Ok tt, w') -> Forall convertible visuals.
Proof.
  unfold write_pass. revert w. induction visuals as [|v visuals IH]; intros w H.
  - constructor.
  - simpl in H. unfold bind in H.
    destruct (write_one_run path_of v w) as [(Hv & Hc & _)|(e & Hv & _)]; rewrite Hv in H.
    + constructor; [exact Hc | eapply IH; exact H].
    + discriminate.
Qed.

Lemma write_pass_ok (path_of : string -> string) (visuals : list (string * Image))
    (w w' : World) :
  write_pass path_of visuals w = (Ok tt, w') ->
  w' = set_files (stored path_of visuals (files w)) w.
Proof.
  intros H. apply write_pass_run in H as (k & -> & _ & ->). now rewrite firstn_all.
Qed.

Lemma write_pass_raise (path_of : string -> string) (visuals : list (string * Image))
    (w w' : World) (e : exn) :
  write_pass path_of visuals w = (Raise e, w') ->
  exists k, stopped_at path_of visuals w w' k.
Proof.
  intros H. apply write_pass_run in H as (k & Hw & Hc & v & Hv & Hfail).
  exists k. split; [|split; [exact Hc | now rewrite Hw]].
  exists v. split; [exact Hv|].
  destruct (write_one_run path_of v w') as [(Hok & _)|(e' & _ & Hcause)]; [|exact Hcause].
  rewrite Hok in Hfail. discriminate.
Qed.

(** A pass that meets, after a prefix it has written, an image that
    cannot be saved, raises there and leaves the world of the prefix. *)
Lemma write_pass_fails_at (path_of : string -> string) (pre post : list (string * Image))
    (v : string * Image) (w w1 : World) :
  write_pass path_of pre w = (Ok tt, w1) ->
  fails_in path_of v w1 ->
  write_pass path_of (pre ++ v :: post) w = (Raise (failure_of v), w1).
Proof.
  unfold write_pass, fails_in. intros H Hv. rewrite for_each_app. unfold bind at 1.
  rewrite H. simpl. unfold bind, write_one, failure_of, utils_save_image.
  destruct (tensor2im (snd v)) as [[im mode]|]; [|reflexivity].
  destruct Hv as [Hv|Hv]; [discriminate|]. now rewrite Hv.
Qed.

End StoredFacts.

(** ** [save_images] and the HTML index *)

Section SaveImages.

Context `{B : Backend}.

(** Whatever the images, the only thing [save_images] hands to the
    index builder is the section header: the lists [ims], [txts] and
    [links] it fills are never passed on. *)
Lemma save_images_doc (visuals : list (string * Image)) (image_path : PathHint)
    (aspect_ratio : spec_float) (width : Z) (use_wandb : bool) (h h' : HTML)
    (w w' : World) (r : result unit) (first : string) :
  first_of image_path = Some first ->
  save_images visuals image_path aspect_ratio width use_wandb (h, w) = (r, (h', w')) ->
  doc h' = (doc h ++ [Section_header (base_name first)])%list.
Proof.
  intros Hf H. rewrite save_images_run, Hf in H. unfold lift in H. cbn [fst snd] in H.
  destruct (write_pass _ visuals w) as [r0 w0]. now injection H as _ <- _.
Qed.

(** C9: the arguments [aspect_ratio], [width] and [use_wandb] of
    [save_images] have no influence on what it does: two calls that
    differ only in them return the same outcome and leave the same
    index builder and the same files (no resizing takes place). *)
Theorem save_images_ignores_display_options (visuals : list (string * Image))
    (image_path : PathHint) (aspect_ratio aspect_ratio' : spec_float) (width width' : Z)
    (use_wandb use_wandb' : bool) (s : HTML * World) :
  save_images visuals image_path aspect_ratio width use_wandb s
  = save_images visuals image_path aspect_ratio' width' use_wandb' s.
Proof. reflexivity. Qed.

End SaveImages.

(** C1: on a VisualSet of two images, with an index builder supplied,
    [save_images] writes both files and adds the header [img1], and the
    index builder receives nothing else: no row with the file names, the
    labels and the links is recorded. *)
Theorem save_images_records_header_only :
  save_images (B := Demo.backend) Demo.two_images (HintList ["/data/img1.png"])
    S754_nan 256 false (Demo.webpage, Demo.empty_world)
  = (Ok tt,
     ({| html_img_dir := "web/images"; doc := [Section_header "img1"] |},
      {| files := <["web/images/img1_fake.png" := "F"]>
                    (<["web/images/img1_real.png" := "R"]> ∅);
         dirs := ∅; stdout := "" |})).
Proof. vm_compute. reflexivity. Qed.

(** ** [reset] and [display_current_results] *)

Section Display.

Context `{B : Backend}.

(** C5: [reset] followed by [display_current_results] with
    [save_result = False] is [display_current_results] with
    [save_result = True], whatever the [saved] flag was: the write pass
    runs. [reset] itself changes the [saved] flag and nothing else, and
    leaves the world alone. *)
Theorem reset_then_display_is_forced_display (visuals : list (string * Image))
    (epoch iter : Z) (self : Visualizer) (w : World) :
  (reset ;; display_current_results visuals epoch iter false) (self, w)
  = display_current_results visuals epoch iter true (self, w)
  /\ display_current_results visuals epoch iter true (self, w)
     = lift (write_pass (epoch_path (img_dir self) epoch iter) visuals)
         (set_saved true self, w)
  /\ reset (self, w)
     = (Ok tt, ({| opt := opt self; name := name self; saved := false;
                   img_dir := img_dir self; log_name := log_name self |}, w)).
Proof.
  split; [|split].
  - unfold bind. rewrite reset_run, !display_current_results_run. reflexivity.
  - now rewrite display_current_results_run.
  - reflexivity.
Qed.

End Display.

(** ** [print_current_losses] *)

(** The float [1.2345] is the binary64 value [5559693739988877 * 2^-52]:
    it lies within half a unit in the last place of 12345/10000, and
    strictly below it, so that three decimals round it down. *)
Lemma literal_1_2345 :
  double_of_ratio 12345 10000 = S754_finite false 5559693739988877 (-52)
  /\ 5559693739988877 * 10000 < 12345 * 2 ^ 52
  /\ 2 * (12345 * 2 ^ 52 - 5559693739988877 * 10000) < 10000
  /\ fmt_f3 (double_of_ratio 12345 10000) = "1.234".
Proof. vm_compute. repeat split. Qed.

(** C3, as stated, fails: on the example the line printed to the
    standard output is not the line of the specification. *)
Lemma print_current_losses_not_spec_line :
  stdout (snd (snd (print_current_losses (B := Demo.backend) 3 10 LossExample.losses
                      LossExample.t_comp LossExample.t_data
                      (Demo.visualizer, Demo.empty_world))))
  <> LossExample.spec_line +:+ nl.
Proof. vm_compute. discriminate. Qed.

(** C3, amended: for the losses G = 1.2345 and D = 0.5, epoch 3,
    iteration 10 and the times 0.100 and 0.020, [print_current_losses]
    builds the line [(epoch: 3, iters: 10, time: 0.100, data: 0.020)
    G: 1.234 D: 0.500 ] (the float 1.2345 lies below the decimal 1.2345
    and [%.3f] rounds it to 1.234), prints it followed by a newline and
    appends the same line and newline to the log file. *)
Theorem print_current_losses_example `{B : Backend} (self : Visualizer) (w : World) :
  writable (set_stdout (stdout w +:+ LossExample.line +:+ nl) w) (log_name self) = true ->
  print_current_losses 3 10 LossExample.losses LossExample.t_comp LossExample.t_data
    (self, w)
  = (Ok tt,
     (self,
      {| files := <[log_name self :=
                     default "" (files w !! log_name self) +:+ LossExample.line +:+ nl]>
                    (files w);
         dirs := dirs w;
         stdout := stdout w +:+ LossExample.line +:+ nl |})).
Proof.
  intros Hw. rewrite print_current_losses_run.
  change (loss_message 3 10 LossExample.losses LossExample.t_comp LossExample.t_data)
    with LossExample.line.
  rewrite Hw. reflexivity.
Qed.

Lemma print_current_losses_example_witness :
  print_current_losses (B := Demo.backend) 3 10 LossExample.losses LossExample.t_comp
    LossExample.t_data (Demo.visualizer, Demo.empty_world)
  = (Ok tt,
     (Demo.visualizer,
      {| files := <["ckpt/exp/loss_log.txt" := LossExample.line +:+ nl]> ∅;
         dirs := ∅;
         stdout := LossExample.line +:+ nl |})).
Proof.
  apply (print_current_losses_example (B := Demo.backend) Demo.visualizer Demo.empty_world).
  reflexivity.
Defined.

(** ** The paths of [display_current_results] *)

Lemma fmt_p3d_nonneg (n : Z) : 0 <= n -> fmt_p3d n = fmt_03d n.
Proof.
  intros Hn. unfold fmt_p3d, fmt_03d.
  destruct (n <? 0) eqn:E; [apply Z.ltb_lt in E; lia | reflexivity].
Qed.

Lemma epoch_path_plain (self : Visualizer) (epoch iter : Z) (label : string) :
  well_formed self ->
  epoch_path (img_dir self) epoch iter label
  = plain_epoch_path (img_dir self) epoch iter label.
Proof.
  intros [Hd _]. unfold epoch_path, plain_epoch_path. simpl.
  rewrite join_step_in_dir by reflexivity.
  destruct (join_images_plain (checkpoints_dir (opt self)) (opt_name (opt self))) as [H1 H2].
  rewrite <- Hd in H1, H2. now rewrite in_dir_plain.
Qed.

Lemma stored_ext `{B : Backend} (p q : string -> string) (visuals : list (string * Image))
    (fs : gmap string string) :
  (forall label, p label = q label) -> stored p visuals fs = stored q visuals fs.
Proof.
  intros Hpq. revert fs. induction visuals as [|v visuals IH]; intros fs; [reflexivity|].
  change (stored p visuals (store_one p fs v) = stored q visuals (store_one q fs v)).
  rewrite IH. unfold store_one. now rewrite Hpq.
Qed.

Section DisplayContract.

Context `{B : Backend}.

(** C4, amended: [display_current_results] runs its write pass exactly
    when [save_result] is true or the [saved] flag is false, and is a
    no-op otherwise (no file written, no state changed). The pass sets
    the flag to true, converts each image and writes it to
    [{img_dir}/epoch{E}_iter{I}_{label}.png] (the file name joined to
    [img_dir] by [os.path.join]), where [E] and [I] are the numbers
    printed with [%.3d]: at least three digits, a minus sign in front of
    them for a negative number. A pass that completes has converted and
    written every image; one that raises stopped at the first image
    that failed. For non-negative [epoch] and [iter] the numbers are
    [{epoch:03d}] and [{iter:03d}]. *)
Theorem display_current_results_contract (visuals : list (string * Image))
    (epoch iter : Z) (save_result : bool) (self : Visualizer) (w : World) :
  (save_result || negb (saved self) = false ->
   display_current_results visuals epoch iter save_result (self, w) = (Ok tt, (self, w)))
  /\ (save_result || negb (saved self) = true ->
      forall r self' w',
        display_current_results visuals epoch iter save_result (self, w)
        = (r, (self', w')) ->
        self' = set_saved true self
        /\ dirs w' = dirs w /\ stdout w' = stdout w
        /\ match r with
           | Ok _ =>
               Forall convertible visuals
               /\ files w'
                  = stored (epoch_path (img_dir self) epoch iter) visuals (files w)
           | Raise _ =>
               exists k, stopped_at (epoch_path (img_dir self) epoch iter) visuals w w' k
           end)
  /\ (forall label,
        epoch_path (img_dir self) epoch iter label
        = in_dir (img_dir self)
            ("epoch" +:+ fmt_p3d epoch +:+ "_iter" +:+ fmt_p3d iter +:+ "_" +:+ label
               +:+ ".png"))
  /\ (forall label,
        is_empty (img_dir self) = false -> endswith_slash (img_dir self) = false ->
        epoch_path (img_dir self) epoch iter label
        = plain_epoch_path (img_dir self) epoch iter label)
  /\ (forall label,
        well_formed self ->
        epoch_path (img_dir self) epoch iter label
        = plain_epoch_path (img_dir self) epoch iter label)
  /\ (0 <= epoch -> 0 <= iter ->
      forall label,
        plain_epoch_path (img_dir self) epoch iter label
        = spec_epoch_path (img_dir self) epoch iter label).
Proof.
  assert (Hdir : forall label,
    epoch_path (img_dir self) epoch iter label
    = in_dir (img_dir self)
        ("epoch" +:+ fmt_p3d epoch +:+ "_iter" +:+ fmt_p3d iter +:+ "_" +:+ label
           +:+ ".png")).
  { intros label. unfold epoch_path. simpl. now apply join_step_in_dir. }
  split; [|split; [|split; [|split; [|split]]]].
  - intros Hc. now rewrite display_current_results_run, Hc.
  - intros Hc r self' w' H. rewrite display_current_results_run, Hc in H.
    unfold lift in H. cbn [fst snd] in H.
    destruct (write_pass _ visuals w) as [r0 w0] eqn:E. injection H as -> <- ->.
    split; [reflexivity|].
    pose proof (write_pass_frame (epoch_path (img_dir self) epoch iter) visuals w)
      as Hframe.
    rewrite E in Hframe. cbn [snd] in Hframe. destruct Hframe as [Hd Ho].
    split; [exact Hd|]. split; [exact Ho|].
    destruct r as [[]|e].
    + split; [eapply write_pass_ok_convertible, E|].
      now rewrite (write_pass_ok _ _ _ _ E).
    + eapply write_pass_raise, E.
  - exact Hdir.
  - intros label H1 H2. rewrite Hdir. unfold plain_epoch_path. now rewrite in_dir_plain.
  - intros label Hwf. now apply epoch_path_plain.
  - intros He Hi label. unfold plain_epoch_path, spec_epoch_path.
    now rewrite !fmt_p3d_nonneg.
Qed.

End DisplayContract.

Lemma display_current_results_contract_witness :
  display_current_results (B := Demo.backend) Demo.two_images 2 30 false
    (set_saved true Demo.visualizer, Demo.empty_world)
  = (Ok tt, (set_saved true Demo.visualizer, Demo.empty_world))
  /\ (let '(r, (self', w')) :=
        display_current_results (B := Demo.backend) Demo.two_images 2 30 false
          (Demo.visualizer, Demo.empty_world) in
      r = Ok tt /\ self' = set_saved true Demo.visualizer
      /\ Forall (convertible (B := Demo.backend)) Demo.two_images
      /\ files w'
         = <["ckpt/exp/images/epoch002_iter030_fake.png" := "F"]>
             (<["ckpt/exp/images/epoch002_iter030_real.png" := "R"]> ∅))
  /\ epoch_path "ckpt/exp/images" 2 30 "real" = spec_epoch_path "ckpt/exp/images" 2 30 "real".
Proof.
  destruct (display_current_results_contract (B := Demo.backend) Demo.two_images 2 30 false
              (set_saved true Demo.visualizer) Demo.empty_world) as (H1 & _).
  destruct (display_current_results_contract (B := Demo.backend) Demo.two_images 2 30 false
              Demo.visualizer Demo.empty_world) as (_ & H2 & _ & H4 & _ & H6).
  split; [apply H1; reflexivity|]. split.
  - destruct (display_current_results (B := Demo.backend) Demo.two_images 2 30 false
                (Demo.visualizer, Demo.empty_world)) as [r [self' w']] eqn:E.
    destruct (H2 eq_refl r self' w' eq_refl) as (Hs & _ & _ & Hr).
    assert (Hok : r = Ok tt) by (vm_compute in E; now injection E as <- _ _).
    subst r. destruct Hr as [Hc Hf]. split; [reflexivity|]. split; [exact Hs|].
    split; [exact Hc|]. rewrite Hf. vm_compute. reflexivity.
  - etransitivity; [apply (H4 "real"); reflexivity|].
    apply (H6 ltac:(lia) ltac:(lia) "real").
Defined.

(** C4, as stated, fails for a negative epoch: the code writes
    [epoch-005...], and no file exists at the path [epoch-05...] of the
    specification. *)
Lemma display_current_results_negative_epoch :
  well_formed Demo.visualizer
  /\ (let '(r, (self', w')) :=
        display_current_results (B := Demo.backend) Demo.two_images (-5) 1 true
          (Demo.visualizer, Demo.empty_world) in
      r = Ok tt
      /\ spec_epoch_path (img_dir Demo.visualizer) (-5) 1 "real"
         = "ckpt/exp/images/epoch-05_iter001_real.png"
      /\ files w' !! spec_epoch_path (img_dir Demo.visualizer) (-5) 1 "real" = None
      /\ files w' !! "ckpt/exp/images/epoch-005_iter001_real.png" = Some "R").
Proof. split; [split; reflexivity | vm_compute; repeat split]. Qed.

(** ** Failures of the save operations *)

Section Failures.

Context `{B : Backend}.

(** C2, amended: a save operation in which the conversion or the
    writing of an image fails stops at that image and raises: the
    exception ([ConversionError] of the converter, [OSError] of the
    writer) reaches the caller. The images that come before the failing
    one in the VisualSet have been written and stay on disk, as by the
    same call on these images alone; the failing one and those after it
    are not written. Nothing is rolled back. Conversely a call that
    raised stopped at such an image, with exactly the earlier ones
    written. *)
Theorem save_operations_stop_at_first_failure :
  (forall pre v post image_path aspect_ratio width use_wandb h w h1 w1 first,
     first_of image_path = Some first ->
     save_images pre image_path aspect_ratio width use_wandb (h, w) = (Ok tt, (h1, w1)) ->
     fails_in (sample_path (html_img_dir h) (base_name first)) v w1 ->
     save_images (pre ++ v :: post) image_path aspect_ratio width use_wandb (h, w)
     = (Raise (failure_of v), (h1, w1))
     /\ files w1 = stored (sample_path (html_img_dir h) (base_name first)) pre (files w))
  /\ (forall pre v post results_dir iter w w1,
        display_test_results results_dir pre iter w = (Ok tt, w1) ->
        fails_in (iter_path results_dir iter) v w1 ->
        display_test_results results_dir (pre ++ v :: post) iter w
        = (Raise (failure_of v), w1)
        /\ files w1 = stored (iter_path results_dir iter) pre (files w))
  /\ (forall pre v post epoch iter save_result self w self1 w1,
        save_result || negb (saved self) = true ->
        display_current_results pre epoch iter save_result (self, w)
        = (Ok tt, (self1, w1)) ->
        fails_in (epoch_path (img_dir self) epoch iter) v w1 ->
        display_current_results (pre ++ v :: post) epoch iter save_result (self, w)
        = (Raise (failure_of v), (self1, w1))
        /\ files w1 = stored (epoch_path (img_dir self) epoch iter) pre (files w))
  /\ (forall visuals image_path aspect_ratio width use_wandb h w first e h' w',
        first_of image_path = Some first ->
        save_images visuals image_path aspect_ratio width use_wandb (h, w)
        = (Raise e, (h', w')) ->
        exists k,
          stopped_at (sample_path (html_img_dir h) (base_name first)) visuals w w' k)
  /\ (forall results_dir visuals iter w e w',
        path_exists results_dir w || writable w results_dir = true ->
        display_test_results results_dir visuals iter w = (Raise e, w') ->
        exists k, stopped_at (iter_path results_dir iter) visuals w w' k)
  /\ (forall visuals epoch iter save_result self w e self' w',
        display_current_results visuals epoch iter save_result (self, w)
        = (Raise e, (self', w')) ->
        exists k, stopped_at (epoch_path (img_dir self) epoch iter) visuals w w' k).
Proof.
  split; [|split; [|split; [|split; [|split]]]].
  - intros pre v post image_path aspect_ratio width use_wandb h w h1 w1 first Hf H Hv.
    rewrite save_images_run, Hf in H |- *. unfold lift in *. cbn [fst snd] in *.
    destruct (write_pass _ pre w) as [r0 w0] eqn:E. injection H as -> <- ->.
    rewrite (write_pass_fails_at _ _ post _ _ _ E Hv).
    split; [reflexivity | now rewrite (write_pass_ok _ _ _ _ E)].
  - intros pre v post results_dir iter w w1 H Hv.
    rewrite display_test_results_run in H |- *.
    destruct (path_exists results_dir w).
    + rewrite (write_pass_fails_at _ _ post _ _ _ H Hv).
      split; [reflexivity | now rewrite (write_pass_ok _ _ _ _ H)].
    + destruct (writable w results_dir); [|discriminate].
      rewrite (write_pass_fails_at _ _ post _ _ _ H Hv).
      split; [reflexivity | now rewrite (write_pass_ok _ _ _ _ H)].
  - intros pre v post epoch iter save_result self w self1 w1 Hc H Hv.
    rewrite display_current_results_run, Hc in H |- *. unfold lift in *.
    cbn [fst snd] in *.
    destruct (write_pass _ pre w) as [r0 w0] eqn:E. injection H as -> <- ->.
    rewrite (write_pass_fails_at _ _ post _ _ _ E Hv).
    split; [reflexivity | now rewrite (write_pass_ok _ _ _ _ E)].
  - intros visuals image_path aspect_ratio width use_wandb h w first e h' w' Hf H.
    rewrite save_images_run, Hf in H. unfold lift in H. cbn [fst snd] in H.
    destruct (write_pass _ visuals w) as [r0 w0] eqn:E. injection H as -> _ ->.
    eapply write_pass_raise, E.
  - intros results_dir visuals iter w e w' Hd H.
    rewrite display_test_results_run in H.
    destruct (path_exists results_dir w); [eapply write_pass_raise, H|].
    cbn [orb] in Hd. rewrite Hd in H.
    apply write_pass_raise in H as (k & Hv & Hc & Hf). exists k. split; [exact Hv|].
    split; [exact Hc | exact Hf].
  - intros visuals epoch iter save_result self w e self' w' H.
    rewrite display_current_results_run in H.
    destruct (save_result || negb (saved self)); [|discriminate].
    unfold lift in H. cbn [fst snd] in H.
    destruct (write_pass _ visuals w) as [r0 w0] eqn:E. injection H as -> _ ->.
    eapply write_pass_raise, E.
Qed.

(** C10: [display_current_results] sets the [saved] flag before it
    writes. If the converter or the writer raises at some image, the
    flag is true afterwards, the images of the labels before it are on
    disk, and a later call with [save_result = False] does nothing: the
    images that failed are not retried. *)
Theorem display_failure_leaves_flag_set (visuals : list (string * Image)) (epoch iter : Z)
    (save_result : bool) (self : Visualizer) (w : World) (e : exn) (self' : Visualizer)
    (w' : World) :
  display_current_results visuals epoch iter save_result (self, w)
  = (Raise e, (self', w')) ->
  saved self' = true
  /\ (exists k,
        stopped_at (epoch_path (img_dir self) epoch iter) visuals w w' k
        /\ forall v, v ∈ take k visuals ->
             epoch_path (img_dir self) epoch iter (fst v) ∈ dom (files w'))
  /\ forall visuals' epoch' iter',
       display_current_results visuals' epoch' iter' false (self', w')
       = (Ok tt, (self', w')).
Proof.
  intros H. rewrite display_current_results_run in H.
  destruct (save_result || negb (saved self)); [|discriminate].
  unfold lift in H. cbn [fst snd] in H.
  destruct (write_pass _ visuals w) as [r0 w0] eqn:E. injection H as -> <- ->.
  split; [reflexivity|]. split.
  - apply write_pass_raise in E as (k & Hs). exists k. split; [exact Hs|].
    destruct Hs as (_ & Hc & Hf). intros v Hv. rewrite Hf, stored_dom by exact Hc.
    apply elem_of_union_r, elem_of_list_to_set, list_elem_of_fmap.
    exists v. split; [reflexivity | exact Hv].
  - intros visuals' epoch' iter'. now rewrite display_current_results_run.
Qed.

End Failures.

(** C2, as stated, fails: when the second image cannot be converted,
    [display_test_results] raises with the first image already on
    disk. *)
Lemma display_test_results_not_atomic :
  let '(r, w') :=
    display_test_results (B := Demo.backend) "out" [("a", Some "A"); ("b", None)] 7
      Demo.empty_world in
  r = Raise ConversionError
  /\ files Demo.empty_world !! "out/iter007_a.png" = None
  /\ files w' !! "out/iter007_a.png" = Some "A".
Proof. vm_compute. repeat split. Qed.

Lemma save_operations_stop_at_first_failure_witness :
  display_test_results (B := Demo.backend) "out" [("a", Some "A"); ("b", None)] 7
    Demo.empty_world
  = (Raise ConversionError,
     {| files := {["out/iter007_a.png" := "A"]}; dirs := {["out"]}; stdout := "" |})
  /\ display_current_results (B := Quota.backend) Demo.two_images 1 2 true
       (Demo.visualizer, Demo.empty_world)
     = (Raise OSError,
        (set_saved true Demo.visualizer,
         {| files := {["ckpt/exp/images/epoch001_iter002_real.png" := "R"]};
            dirs := ∅; stdout := "" |}))
  /\ save_images (B := Quota.backend) Demo.two_images (HintList ["/data/img1.png"])
       S754_nan 256 false (Demo.webpage, Demo.empty_world)
     = (Raise OSError,
        ({| html_img_dir := "web/images"; doc := [Section_header "img1"] |},
         {| files := {["web/images/img1_real.png" := "R"]}; dirs := ∅; stdout := "" |}))
  /\ exists k,
       stopped_at (B := Demo.backend) (iter_path "out" 7) [("a", Some "A"); ("b", None)]
         Demo.empty_world
         (snd (display_test_results (B := Demo.backend) "out"
                 [("a", Some "A"); ("b", None)] 7 Demo.empty_world)) k.
Proof.
  split; [|split; [|split]].
  - destruct (save_operations_stop_at_first_failure (B := Demo.backend))
      as (_ & H & _).
    refine (proj1 (H [("a", Some "A")] ("b", None) [] "out" 7 Demo.empty_world _ _ _)).
    + vm_compute. reflexivity.
    + left. reflexivity.
  - destruct (save_operations_stop_at_first_failure (B := Quota.backend))
      as (_ & _ & H & _).
    refine (proj1 (H [("real", Some "R")] ("fake", Some "F") [] 1 2 true Demo.visualizer
                     Demo.empty_world _ _ _ _ _)).
    + reflexivity.
    + vm_compute. reflexivity.
    + right. reflexivity.
  - destruct (save_operations_stop_at_first_failure (B := Quota.backend))
      as (H & _).
    refine (proj1 (H [("real", Some "R")] ("fake", Some "F") [] (HintList ["/data/img1.png"])
                     S754_nan 256 false Demo.webpage Demo.empty_world _ _ "/data/img1.png"
                     _ _ _)).
    + reflexivity.
    + vm_compute. reflexivity.
    + right. reflexivity.
  - destruct (save_operations_stop_at_first_failure (B := Demo.backend))
      as (_ & _ & _ & _ & H & _).
    apply (H "out" [("a", Some "A"); ("b", None)] 7 Demo.empty_world ConversionError).
    + reflexivity.
    + vm_compute. reflexivity.
Defined.

Lemma display_failure_leaves_flag_set_witness :
  saved (fst (snd (display_current_results (B := Demo.backend)
                     [("a", Some "A"); ("b", None)] 1 2 false
                     (Demo.visualizer, Demo.empty_world)))) = true.
Proof.
  refine (proj1 (display_failure_leaves_flag_set (B := Demo.backend)
                   [("a", Some "A"); ("b", None)] 1 2 false Demo.visualizer Demo.empty_world
                   ConversionError _ _ _)).
  vm_compute. reflexivity.
Defined.

(** ** Base names and file names *)

Section NameFacts.

Lemma substring_whole (s : string) : String.substring 0 (String.length s) s = s.
Proof. induction s as [|c s IH]; simpl; [reflexivity | now rewrite IH]. Qed.

Lemma take_drop_str (n : nat) (s : string) : take_str n s +:+ drop_str n s = s.
Proof.
  unfold take_str, drop_str. revert n. induction s as [|c s IH]; intros [|n]; simpl.
  - reflexivity.
  - reflexivity.
  - now rewrite substring_whole.
  - rewrite str_app_cons. f_equal. apply IH.
Qed.

Lemma splitdrive_suffix (p : string) :
  exists head, p = head +:+ snd (ntpath_splitdrive p).
Proof.
  unfold ntpath_splitdrive.
  repeat match goal with
         | |- context [if ?b then _ else _] => destruct b
         | |- context [match ?o with Some _ => _ | None => _ end] => destruct o
         end; cbn [snd];
    first [ now exists "" | eexists; symmetry; apply take_drop_str
          | exists p; now rewrite str_app_nil_r ].
Qed.

Lemma after_last_sep_suffix (p t : string) :
  after_last_sep p = Some t -> exists head, p = head +:+ t.
Proof.
  revert t. induction p as [|c p IH]; intros t H; simpl in H; [discriminate|].
  destruct (after_last_sep p) as [t'|].
  - injection H as <-. destruct (IH t' eq_refl) as [head ->].
    exists (String c head). reflexivity.
  - destruct (is_ntsep c); [|discriminate]. injection H as <-.
    exists (String c ""). reflexivity.
Qed.

(** [ntpath.basename] keeps the end of the path: what it drops is the
    directory part in front. *)
Lemma ntpath_basename_suffix (p : string) :
  exists head, p = head +:+ ntpath_basename p.
Proof.
  unfold ntpath_basename. destruct (splitdrive_suffix p) as [drive Hd].
  destruct (after_last_sep (snd (ntpath_splitdrive p))) as [t|] eqn:E; simpl.
  - apply after_last_sep_suffix in E as [head E]. exists (drive +:+ head).
    rewrite str_app_assoc, <- E. exact Hd.
  - exists drive. exact Hd.
Qed.

(** [os.path.splitext] cuts its argument in two. *)
Lemma splitext_parts (p : string) :
  fst (os_path_splitext p) +:+ snd (os_path_splitext p) = p.
Proof.
  unfold os_path_splitext.
  repeat match goal with |- context [if ?b then _ else _] => destruct b end;
    cbn [fst snd]; auto using take_drop_str, str_app_nil_r.
Qed.

Lemma iter_path_in_dir (results_dir : string) (iter : Z) (label : string) :
  iter_path results_dir iter label
  = in_dir results_dir ("iter" +:+ fmt_p3d iter +:+ "_" +:+ label +:+ ".png").
Proof. unfold iter_path. simpl. now apply join_step_in_dir. Qed.


End NameFacts.

Section Overwrite.

Context `{B : Backend}.



End Overwrite.


Section SaveImagesNames.

Context `{B : Backend}.

(** X17: for a hint given as a non-empty list of paths, [save_images]
    derives the base name from the first path of the list:
    [ntpath.basename] keeps what follows the last separator (the
    directory is stripped), [os.path.splitext] cuts the extension off,
    and each image of the VisualSet, once converted by [tensor2im], is
    written to [{baseName}_{label}.png] in the image directory of the
    web page. *)
Theorem save_images_list_hint (visuals : list (string * Image)) (p : string)
    (rest : list string) (aspect_ratio : spec_float) (width : Z) (use_wandb : bool)
    (h h' : HTML) (w w' : World) :
  save_images visuals (HintList (p :: rest)) aspect_ratio width use_wandb (h, w)
  = (Ok tt, (h', w')) ->
  let short_path := ntpath_basename p in
  let name := fst (os_path_splitext short_path) in
  (exists head, p = head +:+ short_path)
  /\ has_ntsep short_path = false
  /\ name +:+ snd (os_path_splitext short_path) = short_path
  /\ Forall convertible visuals
  /\ files w'
     = stored (fun label => in_dir (html_img_dir h) (name +:+ "_" +:+ label +:+ ".png"))
         visuals (files w).
Proof.
  intros H short_path name. rewrite save_images_run in H. cbn [first_of] in H.
  unfold lift in H. cbn [fst snd] in H.
  destruct (write_pass _ visuals w) as [r0 w0] eqn:E. injection H as -> _ ->.
  split; [apply ntpath_basename_suffix|].
  split; [apply ntpath_basename_no_sep|].
  split; [apply splitext_parts|].
  split; [eapply write_pass_ok_convertible, E|].
  rewrite (write_pass_ok _ _ _ _ E). cbn [files set_files].
  apply stored_ext. intros label. apply image_name_in_dir.
Qed.

End SaveImagesNames.

Lemma save_images_list_hint_witness :
  files (snd (snd (save_images (B := Demo.backend) Demo.two_images
                     (HintList ["/data/img1.png"]) S754_nan 256 false
                     (Demo.webpage, Demo.empty_world))))
  = <["web/images/img1_fake.png" := "F"]> (<["web/images/img1_real.png" := "R"]> ∅).
Proof.
  destruct (save_images_list_hint (B := Demo.backend) Demo.two_images "/data/img1.png" []
              S754_nan 256 false Demo.webpage
              (fst (snd (save_images (B := Demo.backend) Demo.two_images
                           (HintList ["/data/img1.png"]) S754_nan 256 false
                           (Demo.webpage, Demo.empty_world))))
              Demo.empty_world
              (snd (snd (save_images (B := Demo.backend) Demo.two_images
                           (HintList ["/data/img1.png"]) S754_nan 256 false
                           (Demo.webpage, Demo.empty_world)))))
    as (_ & _ & _ & _ & Hfiles).
  - vm_compute. reflexivity.
  - rewrite Hfiles. vm_compute. reflexivity.
Defined.

(** C8: for a hint given as a plain path, the type the docstring
    names, the code does not strip the directory and the extension from
    the path: [image_path[0]] is the first character of the string, so
    for [/data/img1.png] the base name is empty instead of [img1], the
    files are [_real.png] and [_fake.png] and the header is empty. *)
Lemma save_images_string_hint :
  base_name "/data/img1.png" = "img1"
  /\ (let '(r, (h', w')) :=
        save_images (B := Demo.backend) Demo.two_images (HintStr "/data/img1.png")
          S754_nan 256 false (Demo.webpage, Demo.empty_world) in
      r = Ok tt
      /\ files w' !! "web/images/img1_real.png" = None
      /\ files w' !! "web/images/_real.png" = Some "R"
      /\ doc h' = [Section_header ""]).
Proof. vm_compute. repeat split. Qed.

(** ** The log file over a session *)

Section LogFile.

Context `{B : Backend}.








End LogFile.



(** ** Characters of the formatted numbers *)

Section FormatFacts.

Lemma has_char_app (c : ascii) (s t : string) :
  has_char c (s +:+ t) = has_char c s || has_char c t.
Proof.
  induction s as [|a s IH]; [reflexivity|].
  rewrite str_app_cons. simpl. now rewrite IH, orb_assoc.
Qed.

Lemma pretty_N_char_digit (d : N) : is_digit (pretty_N_char d) = true.
Proof. unfold pretty_N_char. repeat case_match; reflexivity. Qed.

Lemma not_digit_ne (c : ascii) (d : N) :
  is_digit c = false -> bool_decide (pretty_N_char d = c) = false.
Proof.
  intros Hc. apply bool_decide_eq_false. intros <-.
  now rewrite pretty_N_char_digit in Hc.
Qed.

Lemma pretty_N_go_chars (c : ascii) (x : N) (s : string) :
  is_digit c = false -> has_char c (pretty_N_go x s) = has_char c s.
Proof.
  intros Hc. revert s. induction (N.lt_wf_0 x) as [x _ IH]; intros s.
  destruct (decide (x = 0%N)) as [->|Hx]; [reflexivity|].
  rewrite pretty_N_go_step by lia. rewrite IH by (apply N.div_lt; lia).
  simpl. now rewrite not_digit_ne.
Qed.

Lemma pretty_N_chars (c : ascii) (n : N) :
  is_digit c = false -> has_char c (pretty n) = false.
Proof.
  intros Hc. unfold pretty, pretty_N. destruct (decide (n = 0%N)).
  - simpl. rewrite orb_false_r. apply (not_digit_ne c 0 Hc).
  - now rewrite pretty_N_go_chars.
Qed.

Lemma zeros_chars (c : ascii) (k : nat) : is_digit c = false -> has_char c (zeros k) = false.
Proof.
  intros Hc. induction k as [|k IH]; [reflexivity|].
  simpl. rewrite IH, orb_false_r. apply (not_digit_ne c 0 Hc).
Qed.

Lemma pad_digits_chars (c : ascii) (width : nat) (n : N) :
  is_digit c = false -> has_char c (pad_digits width (pretty n)) = false.
Proof.
  intros Hc. unfold pad_digits. now rewrite has_char_app, zeros_chars, pretty_N_chars.
Qed.

(** [%.3d] prints digits, after a minus sign for a negative number. *)
Lemma fmt_p3d_chars (c : ascii) (n : Z) :
  is_digit c = false -> c <> "-"%char -> has_char c (fmt_p3d n) = false.
Proof.
  intros Hc Hd. unfold fmt_p3d. rewrite has_char_app, pad_digits_chars by exact Hc.
  destruct (n <? 0); simpl; [|reflexivity].
  rewrite !orb_false_r. apply bool_decide_eq_false. congruence.
Qed.

Lemma fmt_d_chars (c : ascii) (n : Z) :
  is_digit c = false -> c <> "-"%char -> has_char c (fmt_d n) = false.
Proof.
  intros Hc Hd. unfold fmt_d. destruct n as [|q|q].
  - apply (pretty_N_chars c 0 Hc).
  - apply (pretty_N_chars c (N.pos q) Hc).
  - change (has_char c ("-" +:+ pretty (N.pos q)) = false).
    rewrite has_char_app, pretty_N_chars by exact Hc. simpl.
    rewrite !orb_false_r. apply bool_decide_eq_false. congruence.
Qed.

Lemma digit_value_char (d : N) : (d < 10)%N -> digit_value (pretty_N_char d) = d.
Proof.
  intros Hd.
  assert (d = 0 \/ d = 1 \/ d = 2 \/ d = 3 \/ d = 4 \/ d = 5 \/ d = 6 \/ d = 7 \/ d = 8
          \/ d = 9)%N as H by lia.
  repeat (destruct H as [->|H]; [reflexivity|]). now subst d.
Qed.

Lemma digits_value_go (x : N) :
  exists k : N, forall acc s,
    digits_value acc (pretty_N_go x s) = digits_value (acc * 10 ^ k + x)%N s.
Proof.
  induction (N.lt_wf_0 x) as [x _ IH].
  destruct (decide (x = 0%N)) as [->|Hx].
  - exists 0%N. intros acc s. rewrite pretty_N_go_0. f_equal. lia.
  - destruct (IH (x `div` 10)%N) as [k Hk]; [apply N.div_lt; lia|].
    exists (k + 1)%N. intros acc s. rewrite pretty_N_go_step by lia.
    rewrite Hk. simpl. rewrite digit_value_char by (apply N.mod_lt; lia). f_equal.
    rewrite N.pow_add_r. pose proof (N.div_mod x 10). lia.
Qed.

Lemma digits_value_pretty (n : N) : digits_value 0 (pretty n) = n.
Proof.
  unfold pretty, pretty_N. destruct (decide (n = 0%N)) as [->|Hn]; [reflexivity|].
  destruct (digits_value_go n) as [k Hk]. rewrite Hk. simpl. lia.
Qed.

Lemma digits_value_zeros (k : nat) (s : string) :
  digits_value 0 (zeros k +:+ s) = digits_value 0 s.
Proof. induction k as [|k IH]; [reflexivity | exact IH]. Qed.

(** The number is read back from what [%.3d] prints. *)
Lemma read_int_fmt_p3d (n : Z) : read_int (fmt_p3d n) = n.
Proof.
  unfold fmt_p3d, read_int. destruct (n <? 0) eqn:E.
  - apply Z.ltb_lt in E. rewrite str_app_cons. cbn [has_char bool_decide orb].
    rewrite bool_decide_eq_true_2 by reflexivity. cbn [orb].
    unfold pad_digits. rewrite str_app_nil_l, digits_value_zeros, digits_value_pretty. lia.
  - apply Z.ltb_ge in E. rewrite str_app_nil_l.
    rewrite pad_digits_chars by reflexivity.
    unfold pad_digits. rewrite digits_value_zeros, digits_value_pretty. lia.
Qed.

Lemma fmt_p3d_inj : Inj (=) (=) fmt_p3d.
Proof. intros m n H. apply (f_equal read_int) in H. now rewrite !read_int_fmt_p3d in H. Qed.

(** Two strings cut at the first occurrence of a character. *)
Lemma split_at_char (c : ascii) (s1 s2 t1 t2 : string) :
  has_char c s1 = false -> has_char c s2 = false ->
  s1 +:+ String c t1 = s2 +:+ String c t2 -> s1 = s2 /\ t1 = t2.
Proof.
  revert s2. induction s1 as [|a s1 IH]; intros [|b s2] H1 H2 H;
    rewrite ?str_app_cons, ?str_app_nil_l in H.
  - injection H as ->. auto.
  - injection H as <- _. simpl in H2. rewrite bool_decide_eq_true_2 in H2 by reflexivity.
    discriminate.
  - injection H as -> _. simpl in H1. rewrite bool_decide_eq_true_2 in H1 by reflexivity.
    discriminate.
  - injection H as -> H. simpl in H1, H2.
    apply orb_false_iff in H1 as [_ H1]. apply orb_false_iff in H2 as [_ H2].
    destruct (IH s2 H1 H2 H) as [-> ->]. auto.
Qed.

End FormatFacts.

(** ** Which files the save operations touch *)

Section PathsApart.

Lemma epoch_path_in_dir (d : string) (epoch iter : Z) (label : string) :
  epoch_path d epoch iter label
  = in_dir d ("epoch" +:+ fmt_p3d epoch +:+ "_iter" +:+ fmt_p3d iter +:+ "_" +:+ label
                +:+ ".png").
Proof. unfold epoch_path. simpl. now apply join_step_in_dir. Qed.

Lemma underscore_not_digit : is_digit "_" = false /\ "_"%char <> "-"%char.
Proof. split; [reflexivity | discriminate]. Qed.

Lemma epoch_path_apart (d : string) (e1 i1 e2 i2 : Z) (l1 l2 : string) :
  epoch_path d e1 i1 l1 = epoch_path d e2 i2 l2 -> e1 = e2 /\ i1 = i2 /\ l1 = l2.
Proof.
  intros H. rewrite !epoch_path_in_dir in H. apply in_dir_inj in H.
  apply String.app_inj in H. destruct underscore_not_digit as [Hd Hm].
  apply (split_at_char "_" (fmt_p3d e1) (fmt_p3d e2)) in H as [He H];
    try (apply fmt_p3d_chars; assumption).
  injection H as H.
  apply (split_at_char "_" (fmt_p3d i1) (fmt_p3d i2)) in H as [Hi H];
    try (apply fmt_p3d_chars; assumption).
  apply fmt_p3d_inj in He, Hi. apply str_app_inv_tail in H. auto.
Qed.

(** X2: the file name of [display_current_results] tells the epoch,
    the iteration and the label apart: two calls that differ in one of
    them never share a file of the image directory. *)
Theorem epoch_path_injective (d : string) (e1 i1 e2 i2 : Z) (l1 l2 : string) :
  epoch_path d e1 i1 l1 = epoch_path d e2 i2 l2 -> e1 = e2 /\ i1 = i2 /\ l1 = l2.
Proof. apply epoch_path_apart. Qed.

Lemma iter_path_injective (d : string) (i1 i2 : Z) (l1 l2 : string) :
  iter_path d i1 l1 = iter_path d i2 l2 -> i1 = i2 /\ l1 = l2.
Proof.
  intros H. rewrite !iter_path_in_dir in H. apply in_dir_inj in H.
  apply String.app_inj in H. destruct underscore_not_digit as [Hd Hm].
  apply (split_at_char "_" (fmt_p3d i1) (fmt_p3d i2)) in H as [Hi H];
    try (apply fmt_p3d_chars; assumption).
  apply fmt_p3d_inj in Hi. apply str_app_inv_tail in H. auto.
Qed.

Lemma drop_str_app (x t : string) : drop_str (String.length x) (x +:+ t) = t.
Proof.
  unfold drop_str. induction x as [|c x IH].
  - rewrite str_app_nil_l. simpl. rewrite Nat.sub_0_r. apply substring_whole.
  - rewrite str_app_cons. simpl. exact IH.
Qed.

Lemma ends_with_app (x t : string) : ends_with t (x +:+ t) = true.
Proof.
  unfold ends_with. rewrite str_app_length.
  replace (String.length x + String.length t - String.length t)%nat
    with (String.length x) by lia.
  rewrite drop_str_app. apply String.eqb_refl.
Qed.

Lemma join_step_suffix (d x t : string) : exists y, join_step d (x +:+ t) = y +:+ t.
Proof.
  unfold join_step.
  destruct (startswith_slash (x +:+ t)); [now exists x|].
  destruct (is_empty d || endswith_slash d).
  - exists (d +:+ x). now rewrite str_app_assoc.
  - exists (d +:+ "/" +:+ x). now rewrite !str_app_assoc.
Qed.

Lemma image_paths_end_with_png :
  (forall d name label, ends_with ".png" (sample_path d name label) = true)
  /\ (forall d iter label, ends_with ".png" (iter_path d iter label) = true)
  /\ (forall d epoch iter label, ends_with ".png" (epoch_path d epoch iter label) = true).
Proof.
  split; [|split]; intros; unfold sample_path, iter_path, epoch_path; simpl;
    rewrite <- !str_app_assoc;
    match goal with
    | |- ends_with _ (join_step ?d (?x +:+ _)) = _ =>
        destruct (join_step_suffix d x ".png") as [y ->]
    end; apply ends_with_app.
Qed.

End PathsApart.

Section Untouched.

Context `{B : Backend}.

(** A write pass leaves alone every path that is not one of its own. *)
Lemma write_pass_other (path_of : string -> string) (visuals : list (string * Image))
    (w w' : World) (r : result unit) (p : string) :
  (forall label, path_of label <> p) ->
  write_pass path_of visuals w = (r, w') ->
  files w' !! p = files w !! p.
Proof.
  intros Hp H. apply write_pass_run in H as (k & -> & _ & _). cbn [files set_files].
  apply stored_lookup_other. intros Hin.
  apply list_elem_of_fmap in Hin as (v & Hv & _). now apply (Hp (fst v)).
Qed.

Lemma save_images_files (visuals : list (string * Image)) (image_path : PathHint)
    (aspect_ratio : spec_float) (width : Z) (use_wandb : bool) (h h' : HTML)
    (w w' : World) (r : result unit) :
  save_images visuals image_path aspect_ratio width use_wandb (h, w) = (r, (h', w')) ->
  match first_of image_path with
  | Some first =>
      write_pass (sample_path (html_img_dir h) (base_name first)) visuals w = (r, w')
      /\ h' = with_header (base_name first) h
  | None => r = Raise IndexError /\ h' = h /\ w' = w
  end.
Proof.
  intros H. rewrite save_images_run in H. destruct (first_of image_path) as [first|].
  - unfold lift in H. cbn [fst snd] in H.
    destruct (write_pass _ visuals w) as [r0 w0]. now injection H as -> <- ->.
  - now injection H as <- <- <-.
Qed.

Lemma display_test_results_files (results_dir : string) (visuals : list (string * Image))
    (iter : Z) (w w' : World) (r : result unit) :
  display_test_results results_dir visuals iter w = (r, w') ->
  (r = Raise OSError /\ w' = w /\ path_exists results_dir w = false
   /\ writable w results_dir = false)
  \/ exists w0,
       write_pass (iter_path results_dir iter) visuals w0 = (r, w')
       /\ files w0 = files w /\ stdout w0 = stdout w
       /\ dirs w0 = (if path_exists results_dir w then dirs w
                     else {[results_dir]} ∪ dirs w)
       /\ path_exists results_dir w || writable w results_dir = true.
Proof.
  intros H. rewrite display_test_results_run in H.
  destruct (path_exists results_dir w) eqn:Ex.
  - right. exists w. auto.
  - destruct (writable w results_dir) eqn:Ew.
    + right. eexists. split; [exact H|]. auto.
    + left. injection H as <- <-. auto.
Qed.

Lemma display_current_results_files (visuals : list (string * Image)) (epoch iter : Z)
    (save_result : bool) (self self' : Visualizer) (w w' : World) (r : result unit) :
  display_current_results visuals epoch iter save_result (self, w) = (r, (self', w')) ->
  (save_result || negb (saved self) = true /\ self' = set_saved true self
   /\ write_pass (epoch_path (img_dir self) epoch iter) visuals w = (r, w'))
  \/ (save_result = false /\ saved self = true /\ r = Ok tt /\ self' = self /\ w' = w).
Proof.
  intros H. rewrite display_current_results_run in H.
  destruct (save_result || negb (saved self)) eqn:Ec.
  - left. unfold lift in H. cbn [fst snd] in H.
    destruct (write_pass _ visuals w) as [r0 w0]. now injection H as -> <- ->.
  - right. apply orb_false_iff in Ec as [-> Hs]. apply negb_false_iff in Hs.
    now injection H as <- <- <-.
Qed.

(** X1: the three save operations only ever write files whose name
    ends with [.png]: whatever the outcome, the content of every other
    path is what it was. *)
Theorem save_operations_write_only_png (p : string) :
  ends_with ".png" p = false ->
  (forall visuals image_path aspect_ratio width use_wandb h w r h' w',
     save_images visuals image_path aspect_ratio width use_wandb (h, w) = (r, (h', w')) ->
     files w' !! p = files w !! p)
  /\ (forall results_dir visuals iter w r w',
        display_test_results results_dir visuals iter w = (r, w') ->
        files w' !! p = files w !! p)
  /\ (forall visuals epoch iter save_result self w r self' w',
        display_current_results visuals epoch iter save_result (self, w)
        = (r, (self', w')) ->
        files w' !! p = files w !! p).
Proof.
  intros Hp. destruct image_paths_end_with_png as (Hs & Hi & He).
  split; [|split].
  - intros visuals image_path aspect_ratio width use_wandb h w r h' w' H.
    apply save_images_files in H. destruct (first_of image_path) as [first|].
    + destruct H as [H _]. eapply write_pass_other, H.
      intros label <-. now rewrite Hs in Hp.
    + now destruct H as (_ & _ & ->).
  - intros results_dir visuals iter w r w' H.
    apply display_test_results_files in H as [(_ & -> & _)|(w0 & H & <- & _)];
      [reflexivity|].
    eapply write_pass_other, H. intros label <-. now rewrite Hi in Hp.
  - intros visuals epoch iter save_result self w r self' w' H.
    apply display_current_results_files in H as [(_ & _ & H)|(_ & _ & _ & _ & ->)];
      [|reflexivity].
    eapply write_pass_other, H. intros label <-. now rewrite He in Hp.
Qed.

(** X3: a call of [display_current_results] for an epoch and an
    iteration never touches the images of another epoch or iteration:
    whatever its outcome, their files are what they were. *)
Theorem display_current_results_keeps_other_iterations
    (visuals : list (string * Image)) (epoch iter epoch' iter' : Z) (save_result : bool)
    (self self' : Visualizer) (w w' : World) (r : result unit) (label : string) :
  epoch' <> epoch \/ iter' <> iter ->
  display_current_results visuals epoch iter save_result (self, w) = (r, (self', w')) ->
  files w' !! epoch_path (img_dir self) epoch' iter' label
  = files w !! epoch_path (img_dir self) epoch' iter' label.
Proof.
  intros Hne H.
  apply display_current_results_files in H as [(_ & _ & H)|(_ & _ & _ & _ & ->)];
    [|reflexivity].
  eapply write_pass_other, H. intros l Heq.
  apply epoch_path_apart in Heq as (He & Hi & _). destruct Hne; congruence.
Qed.

(** X4: likewise a call of [display_test_results] for an iteration
    leaves the images of every other iteration as they were. *)
Theorem display_test_results_keeps_other_iterations (results_dir : string)
    (visuals : list (string * Image)) (iter iter' : Z) (w w' : World) (r : result unit)
    (label : string) :
  iter' <> iter ->
  display_test_results results_dir visuals iter w = (r, w') ->
  files w' !! iter_path results_dir iter' label
  = files w !! iter_path results_dir iter' label.
Proof.
  intros Hne H.
  apply display_test_results_files in H as [(_ & -> & _)|(w0 & H & <- & _)];
    [reflexivity|].
  eapply write_pass_other, H. intros l Heq.
  apply iter_path_injective in Heq as [Hi _]. congruence.
Qed.

End Untouched.

(** ** What a completed write pass leaves *)

Section Completed.

Context `{B : Backend}.

Lemma stored_keeps_files (path_of : string -> string) (visuals : list (string * Image))
    (fs : gmap string string) (p : string) :
  is_Some (fs !! p) -> is_Some (stored path_of visuals fs !! p).
Proof.
  revert fs. induction visuals as [|v visuals IH]; intros fs Hp; [exact Hp|].
  change (is_Some (stored path_of visuals (store_one path_of fs v) !! p)).
  apply IH. unfold store_one. destruct (tensor2im (snd v)) as [[im mode]|]; [|exact Hp].
  destruct (decide (path_of (fst v) = p)) as [->|Hne].
  - rewrite lookup_insert_eq. eauto.
  - now rewrite lookup_insert_ne.
Qed.

(** With distinct labels and paths that tell the labels apart, a
    completed pass leaves one file per label, holding the encoding of
    the image of that label, and no other new file. *)
Lemma write_pass_ok_files (path_of : string -> string) (visuals : list (string * Image))
    (w w' : World) :
  Inj (=) (=) path_of -> NoDup (map fst visuals) ->
  write_pass path_of visuals w = (Ok tt, w') ->
  (forall label image, (label, image) ∈ visuals ->
     exists im mode, tensor2im image = Some (im, mode)
                     /\ files w' !! path_of label = Some (png_bytes im mode))
  /\ dom (files w')
     = dom (files w) ∪ list_to_set (map (fun v => path_of (fst v)) visuals)
  /\ dirs w' = dirs w /\ stdout w' = stdout w.
Proof.
  intros Hinj Hnd H. pose proof (write_pass_ok_convertible _ _ _ _ H) as Hc.
  apply write_pass_ok in H as ->. cbn [files dirs stdout set_files].
  split; [|split; [now apply stored_dom | auto]].
  intros label image Hin.
  assert (Hconv : convertible (label, image))
    by (eapply Forall_forall in Hc; [exact Hc | exact Hin]).
  destruct Hconv as [[im mode] Hconv]. exists im, mode. split; [exact Hconv|].
  eapply stored_lookup_label; eauto.
Qed.

Lemma sample_path_inj (d first : string) : Inj (=) (=) (sample_path d (base_name first)).
Proof.
  intros l1 l2 H. unfold sample_path, base_name in H. rewrite !image_name_in_dir in H.
  apply in_dir_inj in H. do 2 apply String.app_inj in H.
  now apply str_app_inv_tail in H.
Qed.

Lemma epoch_path_label_inj (d : string) (epoch iter : Z) :
  Inj (=) (=) (epoch_path d epoch iter).
Proof. intros l1 l2 H. now apply epoch_path_apart in H as (_ & _ & ->). Qed.

(** X5: when [image_path] has no first element (an empty list, an
    empty string), [save_images] raises [IndexError] before anything
    happens: no header is added to the web page and no file is
    written. *)
Theorem save_images_without_first_path (visuals : list (string * Image))
    (image_path : PathHint) (aspect_ratio : spec_float) (width : Z) (use_wandb : bool)
    (s : HTML * World) :
  image_path = HintList [] \/ image_path = HintStr "" ->
  save_images visuals image_path aspect_ratio width use_wandb s = (Raise IndexError, s).
Proof. destruct s as [h w]. intros [->| ->]; now rewrite save_images_run. Qed.

(** X6: once [image_path[0]] exists, [save_images] adds the header of
    the base name to the web page exactly once, before the first image:
    the header is there whatever happens to the images, also when one of
    them fails. The image directory of the page, the directories and the
    standard output are left alone, and an empty VisualSet writes no
    file. *)
Theorem save_images_header (visuals : list (string * Image)) (image_path : PathHint)
    (aspect_ratio : spec_float) (width : Z) (use_wandb : bool) (h h' : HTML)
    (w w' : World) (r : result unit) (first : string) :
  first_of image_path = Some first ->
  save_images visuals image_path aspect_ratio width use_wandb (h, w) = (r, (h', w')) ->
  doc h' = (doc h ++ [Section_header (base_name first)])%list
  /\ html_img_dir h' = html_img_dir h
  /\ dirs w' = dirs w /\ stdout w' = stdout w
  /\ (visuals = [] -> r = Ok tt /\ w' = w).
Proof.
  intros Hf H. apply save_images_files in H. rewrite Hf in H. destruct H as [H ->].
  split; [reflexivity|]. split; [reflexivity|].
  pose proof (write_pass_frame (sample_path (html_img_dir h) (base_name first)) visuals w)
    as Hframe.
  rewrite H in Hframe. cbn [snd] in Hframe. destruct Hframe as [Hd Ho].
  split; [exact Hd|]. split; [exact Ho|].
  intros ->. now injection H as <- <-.
Qed.

(** X7: a call of [save_images] that completes on a VisualSet with
    distinct labels leaves, for each label, the file
    [{baseName}_{label}.png] of the image directory holding the encoding
    of the converted image of that label; the set of files grows by
    these paths and by nothing else. *)
Theorem save_images_completed (visuals : list (string * Image)) (image_path : PathHint)
    (aspect_ratio : spec_float) (width : Z) (use_wandb : bool) (h h' : HTML)
    (w w' : World) (first : string) :
  first_of image_path = Some first ->
  NoDup (map fst visuals) ->
  save_images visuals image_path aspect_ratio width use_wandb (h, w) = (Ok tt, (h', w')) ->
  (forall label image, (label, image) ∈ visuals ->
     exists im mode,
       tensor2im image = Some (im, mode)
       /\ files w' !! in_dir (html_img_dir h) (base_name first +:+ "_" +:+ label +:+ ".png")
          = Some (png_bytes im mode))
  /\ dom (files w')
     = dom (files w)
       ∪ list_to_set
           (map (fun v => in_dir (html_img_dir h)
                            (base_name first +:+ "_" +:+ fst v +:+ ".png")) visuals).
Proof.
  intros Hf Hnd H. apply save_images_files in H. rewrite Hf in H. destruct H as [H _].
  apply write_pass_ok_files in H as (Hfiles & Hdom & _); [|apply sample_path_inj|exact Hnd].
  split.
  - intros label image Hin. destruct (Hfiles label image Hin) as (im & mode & Hc & Hl).
    exists im, mode. split; [exact Hc|].
    unfold sample_path, base_name in Hl. now rewrite image_name_in_dir in Hl.
  - rewrite Hdom. do 2 f_equal. apply map_ext. intros v.
    unfold sample_path, base_name. apply image_name_in_dir.
Qed.

(** X8: [display_test_results] makes sure of the directory before it
    looks at the images. If the directory is missing and cannot be
    created, [OSError] is raised and nothing has changed. Otherwise the
    directory exists when the call ends, also when an image failed; it
    is created only when it was missing. The standard output is never
    written. *)
Theorem display_test_results_directory (results_dir : string)
    (visuals : list (string * Image)) (iter : Z) (w w' : World) (r : result unit) :
  display_test_results results_dir visuals iter w = (r, w') ->
  stdout w' = stdout w
  /\ ((path_exists results_dir w = false /\ writable w results_dir = false
       /\ r = Raise OSError /\ w' = w)
      \/ (path_exists results_dir w || writable w results_dir = true
          /\ path_exists results_dir w' = true
          /\ dirs w' = (if path_exists results_dir w then dirs w
                        else {[results_dir]} ∪ dirs w))).
Proof.
  intros H.
  apply display_test_results_files in H
    as [(-> & -> & Hex & Hw)|(w0 & H & Hf & Ho & Hd & Hok)].
  - split; [reflexivity|]. left. auto.
  - pose proof (write_pass_frame (iter_path results_dir iter) visuals w0) as Hframe.
    rewrite H in Hframe. cbn [snd] in Hframe. destruct Hframe as [Hd' Ho'].
    split; [congruence|]. right. split; [exact Hok|].
    rewrite Hd', Hd. split; [|reflexivity].
    apply write_pass_run in H as (k & -> & _). unfold path_exists in *.
    cbn [files dirs set_files]. rewrite Hd, Hf.
    destruct (bool_decide (results_dir ∈ dirs w)
              || bool_decide (results_dir ∈ dom (files w))) eqn:Ex.
    + apply orb_true_iff in Ex as [Ex|Ex]; [now rewrite Ex|].
      apply bool_decide_eq_true in Ex. apply orb_true_iff. right.
      apply bool_decide_eq_true, elem_of_dom, stored_keeps_files. now apply elem_of_dom.
    + apply orb_true_iff. left. apply bool_decide_eq_true.
      apply elem_of_union_l, elem_of_singleton. reflexivity.
Qed.

End Completed.

(** ** The [saved] flag *)

Section SavedFlag.

Context `{B : Backend}.

(** X9: a call of [display_current_results] that runs its pass to
    the end on a VisualSet with distinct labels leaves, for each label,
    the file of that epoch, iteration and label holding the encoding of
    the converted image; the set of files grows by these paths only, and
    the directories and the standard output are left alone. *)
Theorem display_current_results_completed (visuals : list (string * Image))
    (epoch iter : Z) (save_result : bool) (self self' : Visualizer) (w w' : World) :
  save_result || negb (saved self) = true ->
  NoDup (map fst visuals) ->
  display_current_results visuals epoch iter save_result (self, w)
  = (Ok tt, (self', w')) ->
  (forall label image, (label, image) ∈ visuals ->
     exists im mode,
       tensor2im image = Some (im, mode)
       /\ files w' !! epoch_path (img_dir self) epoch iter label
          = Some (png_bytes im mode))
  /\ dom (files w')
     = dom (files w)
       ∪ list_to_set (map (fun v => epoch_path (img_dir self) epoch iter (fst v)) visuals)
  /\ dirs w' = dirs w /\ stdout w' = stdout w.
Proof.
  intros Hc Hnd H.
  apply display_current_results_files in H as [(_ & _ & H)|(Hr & Hs & _)];
    [|rewrite Hr, Hs in Hc; discriminate].
  now apply write_pass_ok_files in H; [|apply epoch_path_label_inj|].
Qed.

(** X10: whatever its arguments and its outcome, a call of
    [display_current_results] ends with the [saved] flag set, and
    changes no other field of the logger. So every later call with
    [save_result = False] does nothing, for any VisualSet, epoch and
    iteration, until [reset] is called: images shown in between are not
    saved. *)
Theorem display_current_results_sets_saved (visuals : list (string * Image))
    (epoch iter : Z) (save_result : bool) (self self' : Visualizer) (w w' : World)
    (r : result unit) :
  display_current_results visuals epoch iter save_result (self, w) = (r, (self', w')) ->
  self' = set_saved true self
  /\ (forall visuals' epoch' iter',
        display_current_results visuals' epoch' iter' false (self', w')
        = (Ok tt, (self', w')))
  /\ (forall visuals' epoch' iter',
        (reset ;; display_current_results visuals' epoch' iter' false) (self', w')
        = lift (write_pass (epoch_path (img_dir self) epoch' iter') visuals') (self', w')).
Proof.
  intros H.
  assert (Hs : self' = set_saved true self).
  { apply display_current_results_files in H
      as [(_ & -> & _)|(_ & Hs & _ & -> & _)]; [reflexivity|].
    destruct self. simpl in Hs. now subst. }
  subst self'. split; [reflexivity|]. split.
  - intros visuals' epoch' iter'. now rewrite display_current_results_run.
  - intros visuals' epoch' iter'. unfold bind. rewrite reset_run.
    now rewrite display_current_results_run.
Qed.

End SavedFlag.

(** ** The lines of [print_current_losses] *)

Section LossLines.

Context `{B : Backend}.

Lemma print_current_losses_outcome (epoch iters : Z)
    (losses : list (string * spec_float)) (t_comp t_data : spec_float)
    (self self' : Visualizer) (w w' : World) (r : result unit) :
  print_current_losses epoch iters losses t_comp t_data (self, w) = (r, (self', w')) ->
  let text := loss_message epoch iters losses t_comp t_data +:+ nl in
  self' = self
  /\ stdout w' = stdout w +:+ text
  /\ dirs w' = dirs w
  /\ (forall p, p <> log_name self -> files w' !! p = files w !! p)
  /\ match r with
     | Ok _ =>
         files w' !! log_name self
         = Some (default "" (files w !! log_name self) +:+ text)
     | Raise e => e = OSError /\ files w' = files w
     end.
Proof.
  intros H text. pose proof (print_current_losses_run epoch iters losses t_comp t_data self w)
    as Hrun.
  cbv zeta in Hrun. rewrite Hrun in H. clear Hrun.
  destruct (writable _ (log_name self)); injection H as <- <- <-;
    cbn [files dirs stdout set_files set_stdout]; unfold appended.
  - repeat split; try reflexivity.
    + intros p Hp. now rewrite lookup_insert_ne.
    + now rewrite lookup_insert_eq.
  - repeat split; reflexivity.
Qed.


Lemma fmt_f3_no_newline (x : spec_float) : has_char (ascii_of_nat 10) (fmt_f3 x) = false.
Proof.
  assert (Hd : is_digit (ascii_of_nat 10) = false) by reflexivity.
  destruct x as [s|s| |s m e]; unfold fmt_f3, fmt_sign;
    try destruct s; try reflexivity;
    rewrite !has_char_app, pad_digits_chars, pretty_N_chars by exact Hd; reflexivity.
Qed.

Lemma loss_message_no_newline (epoch iters : Z) (losses : list (string * spec_float))
    (t_comp t_data : spec_float) :
  Forall (fun kv => has_char (ascii_of_nat 10) (fst kv) = false) losses ->
  has_char (ascii_of_nat 10) (loss_message epoch iters losses t_comp t_data) = false.
Proof.
  intros Hk. unfold loss_message.
  assert (Hinit : has_char (ascii_of_nat 10)
            ("(epoch: " +:+ fmt_d epoch +:+ ", iters: " +:+ fmt_d iters +:+ ", time: "
               +:+ fmt_f3 t_comp +:+ ", data: " +:+ fmt_f3 t_data +:+ ") ") = false).
  { rewrite !has_char_app, !fmt_f3_no_newline, !fmt_d_chars by (reflexivity || discriminate).
    reflexivity. }
  revert Hinit. generalize ("(epoch: " +:+ fmt_d epoch +:+ ", iters: " +:+ fmt_d iters
    +:+ ", time: " +:+ fmt_f3 t_comp +:+ ", data: " +:+ fmt_f3 t_data +:+ ") ").
  induction Hk as [|[k v] losses Hkv Hk IH]; intros init Hinit; [exact Hinit|].
  simpl. apply IH. simpl in Hkv.
  rewrite !has_char_app, Hinit, Hkv, fmt_f3_no_newline. reflexivity.
Qed.

(** X12: when no loss name holds a newline, the text that a
    completed [print_current_losses] appends to the log is one line: a
    text without newline, followed by one newline. The standard output
    receives the same line. *)
Theorem print_current_losses_one_line (epoch iters : Z)
    (losses : list (string * spec_float)) (t_comp t_data : spec_float)
    (self self' : Visualizer) (w w' : World) :
  Forall (fun kv => has_char (ascii_of_nat 10) (fst kv) = false) losses ->
  print_current_losses epoch iters losses t_comp t_data (self, w) = (Ok tt, (self', w')) ->
  exists line,
    has_char (ascii_of_nat 10) line = false
    /\ files w' !! log_name self
       = Some (default "" (files w !! log_name self) +:+ line +:+ nl)
    /\ stdout w' = stdout w +:+ line +:+ nl.
Proof.
  intros Hk H. exists (loss_message epoch iters losses t_comp t_data).
  split; [now apply loss_message_no_newline|].
  apply print_current_losses_outcome in H as (_ & Ho & _ & _ & Hl). auto.
Qed.

End LossLines.

(** ** The constructor *)

Section Constructor.

Context `{B : Backend}.

Lemma Visualizer_init_self (o : Opt) (now : string) (w0 w1 : World) (self : Visualizer) :
  Visualizer_init o now w0 = (Ok self, w1) -> self = new_visualizer o.
Proof.
  intros H. pose proof (Visualizer_init_run o now w0) as Hrun. cbv zeta in Hrun.
  rewrite Hrun in H. clear Hrun.
  repeat match type of H with
         | context [if ?b then _ else _] => destruct b
         end; try discriminate; now injection H as <- _.
Qed.

(** X13: the image directory and the log file of a logger are
    siblings: both are placed, by [os.path.join], in the directory
    [join(checkpoints_dir, name)]. When [opt.name] starts with a slash,
    that directory is [opt.name] itself and [checkpoints_dir] plays no
    part. *)
Theorem Visualizer_init_layout (o : Opt) (now : string) (w0 w1 : World)
    (self : Visualizer) :
  Visualizer_init o now w0 = (Ok self, w1) ->
  let parent := join_step (checkpoints_dir o) (opt_name o) in
  img_dir self = in_dir parent "images"
  /\ log_name self = in_dir parent "loss_log.txt"
  /\ (startswith_slash (opt_name o) = true -> parent = opt_name o)
  /\ (startswith_slash (opt_name o) = false ->
      parent = in_dir (checkpoints_dir o) (opt_name o)).
Proof.
  intros H parent. apply Visualizer_init_self in H as ->. subst parent.
  split; [apply (join_step_in_dir _ "images"); reflexivity|].
  split; [apply (join_step_in_dir _ "loss_log.txt"); reflexivity|].
  split; intros Hn.
  - unfold join_step. now rewrite Hn.
  - now apply join_step_in_dir.
Qed.


(** X15: the first [display_current_results] after the constructor
    saves the images even with [save_result = False]: a new logger needs
    no [reset]. *)
Theorem new_logger_first_display_saves (o : Opt) (now : string) (w0 w1 : World)
    (self : Visualizer) (visuals : list (string * Image)) (epoch iter : Z) :
  Visualizer_init o now w0 = (Ok self, w1) ->
  display_current_results visuals epoch iter false (self, w1)
  = lift (write_pass (epoch_path (img_dir self) epoch iter) visuals)
      (set_saved true self, w1).
Proof.
  intros H. apply Visualizer_init_self in H as ->.
  now rewrite display_current_results_run.
Qed.

End Constructor.

(** ** Sessions without a forced write *)

Section QuietSessions.

Context `{B : Backend}.

Lemma run_op_unforced (o : op) (self self' : Visualizer) (w w' : World)
    (r : result unit) :
  unforced o = true -> saved self = true ->
  run_op o (self, w) = (r, (self', w')) ->
  self' = self /\ dirs w' = dirs w
  /\ forall p, p <> log_name self -> files w' !! p = files w !! p.
Proof.
  intros Hu Hs H. destruct o as [|visuals epoch iter save_result|epoch iters losses tc td];
    simpl in Hu, H.
  - discriminate.
  - apply negb_true_iff in Hu. subst save_result.
    rewrite display_current_results_run, Hs in H. now injection H as _ <- <-.
  - apply print_current_losses_outcome in H as (-> & _ & Hd & Hf & _). auto.
Qed.

(** X16: once the [saved] flag is set, a sequence of calls of
    [print_current_losses] and of [display_current_results] with
    [save_result = False], however long and whatever its outcome, writes
    no image: the flag stays set, the directories stay as they are, and
    the only file that changes is the log. *)
Theorem unforced_calls_write_no_image (ops : list op) (self self' : Visualizer)
    (w w' : World) (r : result unit) :
  Forall (fun o => unforced o = true) ops -> saved self = true ->
  run_ops ops (self, w) = (r, (self', w')) ->
  self' = self /\ dirs w' = dirs w
  /\ forall p, p <> log_name self -> files w' !! p = files w !! p.
Proof.
  unfold run_ops. intros Hu Hs. revert w.
  induction Hu as [|o ops Ho Hu IH]; intros w H.
  - now injection H as _ <- <-.
  - simpl in H. unfold bind in H.
    destruct (run_op o (self, w)) as [[u|e] [self1 w1]] eqn:E.
    + apply (run_op_unforced _ _ _ _ _ _ Ho Hs) in E as (-> & Hd & Hf).
      destruct (IH _ H) as (-> & Hd' & Hf'). split; [reflexivity|].
      split; [congruence|]. intros p Hp. now rewrite Hf', Hf.
    + injection H as _ <- <-. now apply (run_op_unforced _ _ _ _ _ _ Ho Hs) in E.
Qed.

End QuietSessions.

(** ** The properties on the concrete backend *)

Lemma save_operations_write_only_png_witness :
  files (snd (snd Runs.displayed)) !! "ckpt/exp/loss_log.txt"
  = files Demo.empty_world !! "ckpt/exp/loss_log.txt".
Proof.
  assert (Hp : ends_with ".png" "ckpt/exp/loss_log.txt" = false) by reflexivity.
  destruct (save_operations_write_only_png (B := Demo.backend) "ckpt/exp/loss_log.txt" Hp)
    as (_ & _ & H).
  apply (H Demo.two_images 3 10 true Demo.visualizer Demo.empty_world (fst Runs.displayed)
           (fst (snd Runs.displayed))).
  vm_compute. reflexivity.
Defined.

Lemma epoch_path_injective_witness : 3 = 3 /\ 10 = 10 /\ "real" = "real".
Proof.
  apply (epoch_path_injective "ckpt/exp/images" 3 10 3 10 "real" "real"). reflexivity.
Defined.

Lemma display_current_results_keeps_other_iterations_witness :
  files (snd (snd Runs.displayed)) !! epoch_path "ckpt/exp/images" 3 9 "real"
  = files Demo.empty_world !! epoch_path "ckpt/exp/images" 3 9 "real".
Proof.
  apply (display_current_results_keeps_other_iterations (B := Demo.backend)
           Demo.two_images 3 10 3 9 true Demo.visualizer (fst (snd Runs.displayed))
           Demo.empty_world (snd (snd Runs.displayed)) (fst Runs.displayed) "real").
  - right. discriminate.
  - vm_compute. reflexivity.
Defined.

Lemma display_test_results_keeps_other_iterations_witness :
  files (snd Runs.tested) !! iter_path "out" 6 "real"
  = files Demo.empty_world !! iter_path "out" 6 "real".
Proof.
  apply (display_test_results_keeps_other_iterations (B := Demo.backend) "out"
           Demo.two_images 7 6 Demo.empty_world (snd Runs.tested) (fst Runs.tested) "real").
  - discriminate.
  - vm_compute. reflexivity.
Defined.

Lemma save_images_without_first_path_witness :
  save_images (B := Demo.backend) Demo.two_images (HintList []) S754_nan 256 false
    (Demo.webpage, Demo.empty_world)
  = (Raise IndexError, (Demo.webpage, Demo.empty_world)).
Proof.
  apply (save_images_without_first_path (B := Demo.backend)). left. reflexivity.
Defined.

Lemma save_images_header_witness :
  doc (fst (snd Runs.saved_page)) = [Section_header "img1"]
  /\ html_img_dir (fst (snd Runs.saved_page)) = "web/images"
  /\ dirs (snd (snd Runs.saved_page)) = ∅ /\ stdout (snd (snd Runs.saved_page)) = ""
  /\ (Demo.two_images = [] ->
      fst Runs.saved_page = Ok tt /\ snd (snd Runs.saved_page) = Demo.empty_world).
Proof.
  apply (save_images_header (B := Demo.backend) Demo.two_images
           (HintList ["/data/img1.png"]) S754_nan 256 false Demo.webpage
           (fst (snd Runs.saved_page)) Demo.empty_world (snd (snd Runs.saved_page))
           (fst Runs.saved_page) "/data/img1.png").
  - reflexivity.
  - vm_compute. reflexivity.
Defined.

Lemma save_images_completed_witness :
  exists im mode,
    tensor2im (Backend := Demo.backend) (Some "R") = Some (im, mode)
    /\ files (snd (snd Runs.saved_page))
         !! in_dir "web/images" (base_name "/data/img1.png" +:+ "_" +:+ "real" +:+ ".png")
       = Some (png_bytes (Backend := Demo.backend) im mode).
Proof.
  refine (proj1 (save_images_completed (B := Demo.backend) Demo.two_images
                   (HintList ["/data/img1.png"]) S754_nan 256 false Demo.webpage
                   (fst (snd Runs.saved_page)) Demo.empty_world (snd (snd Runs.saved_page))
                   "/data/img1.png" _ _ _) "real" (Some "R") _).
  - reflexivity.
  - repeat constructor; [intros Hin; apply list_elem_of_singleton in Hin; discriminate
                        | intros Hin; now apply elem_of_nil in Hin].
  - vm_compute. reflexivity.
  - apply list_elem_of_here.
Defined.

Lemma display_test_results_directory_witness :
  stdout (snd Runs.tested) = ""
  /\ ((path_exists "out" Demo.empty_world = false
       /\ writable (Backend := Demo.backend) Demo.empty_world "out" = false
       /\ fst Runs.tested = Raise OSError /\ snd Runs.tested = Demo.empty_world)
      \/ (path_exists "out" Demo.empty_world
          || writable (Backend := Demo.backend) Demo.empty_world "out" = true
          /\ path_exists "out" (snd Runs.tested) = true
          /\ dirs (snd Runs.tested)
             = (if path_exists "out" Demo.empty_world then dirs Demo.empty_world
                else {["out"]} ∪ dirs Demo.empty_world))).
Proof.
  apply (display_test_results_directory (B := Demo.backend) "out" Demo.two_images 7
           Demo.empty_world (snd Runs.tested) (fst Runs.tested)).
  vm_compute. reflexivity.
Defined.

Lemma display_current_results_completed_witness :
  exists im mode,
    tensor2im (Backend := Demo.backend) (Some "F") = Some (im, mode)
    /\ files (snd (snd Runs.displayed)) !! epoch_path "ckpt/exp/images" 3 10 "fake"
       = Some (png_bytes (Backend := Demo.backend) im mode).
Proof.
  refine (proj1 (display_current_results_completed (B := Demo.backend) Demo.two_images
                   3 10 true Demo.visualizer (fst (snd Runs.displayed)) Demo.empty_world
                   (snd (snd Runs.displayed)) _ _ _) "fake" (Some "F") _).
  - reflexivity.
  - repeat constructor; [intros Hin; apply list_elem_of_singleton in Hin; discriminate
                        | intros Hin; now apply elem_of_nil in Hin].
  - vm_compute. reflexivity.
  - apply list_elem_of_further, list_elem_of_here.
Defined.

Lemma display_current_results_sets_saved_witness :
  fst (snd Runs.displayed) = set_saved true Demo.visualizer.
Proof.
  refine (proj1 (display_current_results_sets_saved (B := Demo.backend) Demo.two_images
                   3 10 true Demo.visualizer (fst (snd Runs.displayed)) Demo.empty_world
                   (snd (snd Runs.displayed)) (fst Runs.displayed) _)).
  vm_compute. reflexivity.
Defined.


Lemma print_current_losses_one_line_witness :
  exists line,
    has_char (ascii_of_nat 10) line = false
    /\ files (snd (snd Runs.printed)) !! "ckpt/exp/loss_log.txt"
       = Some (default "" (files Demo.empty_world !! "ckpt/exp/loss_log.txt")
                 +:+ line +:+ nl)
    /\ stdout (snd (snd Runs.printed)) = "" +:+ line +:+ nl.
Proof.
  apply (print_current_losses_one_line (B := Demo.backend) 3 10 LossExample.losses
           LossExample.t_comp LossExample.t_data Demo.visualizer (fst (snd Runs.printed))
           Demo.empty_world (snd (snd Runs.printed))).
  - repeat constructor.
  - vm_compute. reflexivity.
Defined.

Lemma Visualizer_init_layout_witness :
  img_dir (new_visualizer Demo.options) = in_dir (join_step "ckpt" "exp") "images"
  /\ log_name (new_visualizer Demo.options) = in_dir (join_step "ckpt" "exp") "loss_log.txt"
  /\ (startswith_slash "exp" = true -> join_step "ckpt" "exp" = "exp")
  /\ (startswith_slash "exp" = false -> join_step "ckpt" "exp" = in_dir "ckpt" "exp").
Proof.
  apply (Visualizer_init_layout (B := Demo.backend) Demo.options "now" Demo.empty_world
           (snd Runs.constructed) (new_visualizer Demo.options)).
  vm_compute. reflexivity.
Defined.


Lemma new_logger_first_display_saves_witness :
  display_current_results (B := Demo.backend) Demo.two_images 1 1 false
    (new_visualizer Demo.options, snd Runs.constructed)
  = lift (write_pass (B := Demo.backend)
            (epoch_path (img_dir (new_visualizer Demo.options)) 1 1) Demo.two_images)
      (set_saved true (new_visualizer Demo.options), snd Runs.constructed).
Proof.
  apply (new_logger_first_display_saves (B := Demo.backend) Demo.options "now"
           Demo.empty_world).
  vm_compute. reflexivity.
Defined.

Lemma unforced_calls_write_no_image_witness :
  fst (snd Runs.after_unforced_calls) = set_saved true Demo.visualizer
  /\ dirs (snd (snd Runs.after_unforced_calls)) = dirs Demo.empty_world
  /\ forall p, p <> "ckpt/exp/loss_log.txt" ->
       files (snd (snd Runs.after_unforced_calls)) !! p = files Demo.empty_world !! p.
Proof.
  apply (unforced_calls_write_no_image (B := Demo.backend) Runs.unforced_calls
           (set_saved true Demo.visualizer) (fst (snd Runs.after_unforced_calls))
           Demo.empty_world (snd (snd Runs.after_unforced_calls))
           (fst Runs.after_unforced_calls)).
  - repeat constructor.
  - reflexivity.
  - vm_compute. reflexivity.
Defined.
